(** * JanetHelper: a shallow embedding of [JanetHelper/JanetHelper.c]

    The helper is a single C translation unit: [log_message],
    [is_authorized], [execute_command], [modify_permissions],
    [change_ownership] and [main].  Every function below carries the name
    of the C function it embeds and follows its statements in order.

    The operating system is split in two:
    - an oracle record [OS] with what the kernel and libc answer
      (credentials, the clock, whether the log file opens, the result of
      [chmod], [chown] and of the child spawned by [system]);
    - a [World] that accumulates what the process did: the bytes appended
      to the log file, the syslog messages, the bytes the helper writes to
      stderr and the privileged operations requested from the kernel.

    C integers follow the LP64 data model: [int] has 32 bits, [long] and
    pointers have 64, and [mode_t], [uid_t] and [gid_t] are unsigned
    32-bit integers.

    The translation unit does not include [<time.h>], so [time],
    [localtime] and [strftime] are implicitly declared and return [int].
    The pointer [localtime] returns is therefore cut to an [int] before
    it is handed to [strftime].  When the pointer does not fit (the usual
    case in a dynamically linked image), [strftime] reads elsewhere and
    the process is killed by a signal inside [log_message], or
    [time_str] receives whatever was found there.  A computation therefore yields
    [None] when the process is killed and [Some] value when it returns. *)

From Stdlib Require Import ZArith List Bool Ascii String Lia.
From Stdlib Require Import DecimalString DecimalPos OctalString.
Import ListNotations.

Local Open Scope list_scope.
Local Open Scope string_scope.
Local Open Scope Z_scope.

(** ** C integers *)

Module CInt.

Definition INT_MAX : Z := 2147483647.
Definition LONG_MAX : Z := 9223372036854775807.
Definition LONG_MIN : Z := - 9223372036854775808.

(** Conversion to an unsigned 32-bit type: [(mode_t)x], [(uid_t)x]. *)
Definition to_u32 (x : Z) : Z := x mod 2 ^ 32.

(** Conversion to [int] (two's complement wrap-around). *)
Definition to_int (x : Z) : Z :=
  let r := x mod 2 ^ 32 in
  if r <=? INT_MAX then r else r - 2 ^ 32.

(** The value a saturating [long] result takes. *)
Definition clamp_long (x : Z) : Z :=
  if x <? LONG_MIN then LONG_MIN
  else if LONG_MAX <? x then LONG_MAX
  else x.

End CInt.

(** ** The libc functions the helper calls *)

Module Libc.

Definition nl : string := String (ascii_of_nat 10) EmptyString.

(** [snprintf(buf, size, ...)] keeps at most [size - 1] bytes. *)
Definition snprintf (size : nat) (s : string) : string :=
  substring 0 (size - 1) s.

(** [%d] and [%o] conversions. *)
Definition fmt_d (n : Z) : string := NilZero.string_of_int (Z.to_int n).

Definition fmt_o (n : Z) : string :=
  match n with
  | Zpos p => OctalString.Raw.of_pos p ""
  | _ => "0"
  end.

(** [isspace] in the C locale. *)
Definition isspace (c : ascii) : bool :=
  let n := nat_of_ascii c in
  (Nat.eqb n 32 || (Nat.leb 9 n && Nat.leb n 13))%bool.

Fixpoint skip_space (s : string) : string :=
  match s with
  | String c r => if isspace c then skip_space r else s
  | EmptyString => s
  end.

Definition digit_val (base : Z) (c : ascii) : option Z :=
  let d := Z.of_nat (nat_of_ascii c) - 48 in
  if ((0 <=? d) && (d <? base))%bool then Some d else None.

(** The longest prefix of digits in [base], read most significant first. *)
Fixpoint accum (base acc : Z) (s : string) : Z :=
  match s with
  | String c r =>
      match digit_val base c with
      | Some d => accum base (acc * base + d) r
      | None => acc
      end
  | EmptyString => acc
  end.

(** [strtol(s, NULL, base)] for a base of at most ten: leading white
    space, an optional sign, then digits; no digits give [0]; a value
    out of range saturates. *)
Definition strtol (s : string) (base : Z) : Z :=
  match skip_space s with
  | String "-" r => CInt.clamp_long (- accum base 0 r)
  | String "+" r => CInt.clamp_long (accum base 0 r)
  | r => CInt.clamp_long (accum base 0 r)
  end.

(** [atoi(s)] is [(int)strtol(s, NULL, 10)]. *)
Definition atoi (s : string) : Z := CInt.to_int (strtol s 10).

(** Broken-down time, with the fields of [struct tm] the helper prints. *)
Record tm : Type := mk_tm {
  tm_sec : Z;
  tm_min : Z;
  tm_hour : Z;
  tm_mday : Z;
  tm_mon : Z;    (* months since January *)
  tm_year : Z    (* years since 1900 *)
}.

(** A two-digit, zero-padded field ([%m], [%d], [%H], [%M], [%S]). *)
Definition pad2 (n : Z) : string :=
  if n <? 10 then "0" ++ fmt_d n else fmt_d n.

(** [strftime(buf, 64, "%Y-%m-%d %H:%M:%S", t)]. *)
Definition strftime (t : tm) : string :=
  fmt_d (tm_year t + 1900) ++ "-" ++ pad2 (tm_mon t + 1) ++ "-" ++
  pad2 (tm_mday t) ++ " " ++ pad2 (tm_hour t) ++ ":" ++
  pad2 (tm_min t) ++ ":" ++ pad2 (tm_sec t).

(** How a child spawned with [fork]/[exec] and awaited with [waitpid]
    ended. *)
Inductive child_status : Type :=
| ForkFailed
| Exited (code : Z)
| Signaled (sig : Z).

(** The [int] that [system] returns: [-1] when no child could be
    created, otherwise the wait status ([code << 8] for a normal exit,
    the signal number for a killed child). *)
Definition wait_status (c : child_status) : Z :=
  match c with
  | ForkFailed => -1
  | Exited code => Z.shiftl code 8
  | Signaled sig => sig
  end.

(** The value the parent reads with [WEXITSTATUS] when the process
    returns [r] from [main]: the low eight bits. *)
Definition exit_status (r : Z) : Z := Z.land r 255.

End Libc.

Import Libc.

(** ** The operating system and the process's footprint *)

(** Result of a system call that reports failure through [errno]. *)
Inductive sysret : Type :=
| SysOk
| SysErr (errno : Z).

(** The [int] a system call returns. *)
Definition sys_int (r : sysret) : Z :=
  match r with SysOk => 0 | SysErr _ => -1 end.

Definition sys_errno (r : sysret) : Z :=
  match r with SysOk => 0 | SysErr e => e end.

Record OS : Type := mkOS {
  os_euid : Z;                       (* geteuid() *)
  os_uid : Z;                        (* getuid() *)
  os_log_open : nat -> bool;         (* fopen(LOG_FILE, "a") succeeds at the k-th log call *)
  os_localtime : nat -> tm;          (* the broken-down time localtime fills in at the k-th log call *)
  os_tm_ptr : nat -> Z;              (* the address localtime returns at the k-th log call *)
  os_wild_strftime : Z -> option string;
    (* strftime handed an int that is not that address: None when the
       access faults, otherwise what it leaves in time_str *)
  os_spawn_wait : string -> list string -> child_status;
  os_chmod : string -> Z -> sysret;
  os_chown : string -> Z -> Z -> sysret;
  os_strerror : Z -> string
}.

(** A privileged operation requested from the kernel: [system] asked to
    run a program with an argument vector, [chmod] or [chown] called.
    The request is recorded whether or not the kernel grants it. *)
Inductive Effect : Type :=
| EvSpawn (path : string) (argv : list string)
| EvChmod (path : string) (mode : Z)
| EvChown (path : string) (uid gid : Z).

Record World : Type := mkWorld {
  w_log : string;            (* bytes appended to /var/log/JanetHelper.log *)
  w_syslog : list string;    (* messages sent with syslog(LOG_NOTICE, ...) *)
  w_stderr : string;         (* bytes the helper's fprintf calls write to stderr *)
  w_effects : list Effect;   (* privileged operations, oldest first *)
  w_logcalls : nat           (* calls of log_message that returned so far *)
}.

(** ** A state monad over [World], with the death of the process *)

Definition M (A : Type) : Type := World -> option A * World.

Definition ret {A : Type} (a : A) : M A := fun w => (Some a, w).

Definition bind {A B : Type} (m : M A) (k : A -> M B) : M B :=
  fun w =>
    match m w with
    | (Some a, w') => k a w'
    | (None, w') => (None, w')
    end.

Declare Scope helper_scope.
Delimit Scope helper_scope with helper.
Notation "x <- m ;; k" := (bind m (fun x => k))
  (at level 61, m at next level, right associativity) : helper_scope.
Notation "m ;; k" := (bind m (fun _ => k))
  (at level 61, right associativity) : helper_scope.
Local Open Scope helper_scope.

(** [fprintf(stderr, ...)]. *)
Definition eprint (s : string) : M unit := fun w =>
  (Some tt, {| w_log := w_log w; w_syslog := w_syslog w;
               w_stderr := w_stderr w ++ s;
               w_effects := w_effects w; w_logcalls := w_logcalls w |}).

(** Record that a privileged operation was requested. *)
Definition perform (e : Effect) : M unit := fun w =>
  (Some tt, {| w_log := w_log w; w_syslog := w_syslog w;
               w_stderr := w_stderr w;
               w_effects := (w_effects w ++ [e])%list;
               w_logcalls := w_logcalls w |}).

Definition BUFFER_SIZE : nat := 4096.

(** The one file the helper ever opens; [w_log] holds what it appends
    there. *)
Definition LOG_FILE : string := "/var/log/JanetHelper.log".

Definition shell_path : string := "/bin/sh".

(** ** The helper *)

Section Helper.

Variable os : OS.

(** [system(command)]: a child is asked to run [sh -c command]; the
    caller gets the wait status, or [-1] when no child could be
    created. *)
Definition system (command : string) : M Z :=
  let argv := ["sh"; "-c"; command] in
  perform (EvSpawn shell_path argv) ;;
  ret (wait_status (os_spawn_wait os shell_path argv)).

Definition chmod (path : string) (mode : Z) : M sysret :=
  perform (EvChmod path mode) ;;
  ret (os_chmod os path mode).

Definition chown (path : string) (uid gid : Z) : M sysret :=
  perform (EvChown path uid gid) ;;
  ret (os_chown os path uid gid).

(** What [strftime(time_str, 64, "%Y-%m-%d %H:%M:%S", localtime(&now))]
    leaves in [time_str] at the [k]-th log call.  [localtime] is
    implicitly [int]: [strftime] gets the pointer cut to an [int].  If
    the cut loses nothing it formats the broken-down time; otherwise it
    reads elsewhere, and [None] stands for the fault that kills the
    process. *)
Definition time_str (k : nat) : option string :=
  let p := os_tm_ptr os k in
  let q := CInt.to_int p in
  if q =? p then Some (strftime (os_localtime os k))
  else os_wild_strftime os q.

(** [log_message]: when the file opens, the line
    [fprintf(log_file, "[%s] %s\n", time_str, message)] is appended; then
    the message goes to syslog.  A fault in [strftime] comes after
    [fopen] and before anything is written. *)
Definition log_message (message : string) : M unit := fun w =>
  let k := w_logcalls w in
  if os_log_open os k then
    match time_str k with
    | Some ts =>
        (Some tt,
         {| w_log := w_log w ++ "[" ++ ts ++ "] " ++ message ++ nl;
            w_syslog := (w_syslog w ++ [message])%list;
            w_stderr := w_stderr w;
            w_effects := w_effects w;
            w_logcalls := S k |})
    | None => (None, w)
    end
  else
    (Some tt,
     {| w_log := w_log w;
        w_syslog := (w_syslog w ++ [message])%list;
        w_stderr := w_stderr w;
        w_effects := w_effects w;
        w_logcalls := S k |}).

Definition is_authorized (caller_uid : Z) : bool := true.

Definition execute_command (command : string) : M Z :=
  log_message (snprintf BUFFER_SIZE ("Executing command: " ++ command)) ;;
  result <- system command ;;
  log_message (snprintf BUFFER_SIZE
                 ("Command execution result: " ++ fmt_d result)) ;;
  ret result.

Definition modify_permissions (path : string) (mode : Z) : M Z :=
  log_message (snprintf BUFFER_SIZE
                 ("Modifying permissions for " ++ path ++ " to " ++ fmt_o mode)) ;;
  r <- chmod path mode ;;
  let result := sys_int r in
  (if negb (result =? 0)
   then log_message (snprintf BUFFER_SIZE
                       ("Failed to modify permissions: " ++
                        os_strerror os (sys_errno r)))
   else log_message "Permissions modified successfully") ;;
  ret result.

Definition change_ownership (path : string) (uid gid : Z) : M Z :=
  log_message (snprintf BUFFER_SIZE
                 ("Changing ownership of " ++ path ++ " to UID " ++
                  fmt_d (CInt.to_int uid) ++ ", GID " ++
                  fmt_d (CInt.to_int gid))) ;;
  r <- chown path uid gid ;;
  let result := sys_int r in
  (if negb (result =? 0)
   then log_message (snprintf BUFFER_SIZE
                       ("Failed to change ownership: " ++
                        os_strerror os (sys_errno r)))
   else log_message "Ownership changed successfully") ;;
  ret result.

(** [main(argc, argv)], with [argc = length argv].  A missing [argv[i]]
    only ever reaches a [%s] conversion, shown here as ["(null)"]. *)
Definition main (argv : list string) : M Z :=
  let argc := Z.of_nat (List.length argv) in
  let arg := fun i => nth i argv "(null)" in
  if negb (os_euid os =? 0) then
    log_message "Error: JanetHelper must be run as root" ;;
    eprint ("Error: JanetHelper must be run as root" ++ nl) ;;
    ret 1
  else
    let caller_uid := os_uid os in
    if negb (is_authorized caller_uid) then
      log_message "Error: Unauthorized caller" ;;
      eprint ("Error: Unauthorized caller" ++ nl) ;;
      ret 1
    else if argc <? 2 then
      log_message "Error: No command specified" ;;
      eprint ("Usage: " ++ arg 0%nat ++ " <command> [args...]" ++ nl) ;;
      ret 1
    else
      let command := arg 1%nat in
      if (command =? "exec")%string then
        if argc <? 3 then
          log_message "Error: No command to execute specified" ;;
          eprint ("Usage: " ++ arg 0%nat ++ " exec <command>" ++ nl) ;;
          ret 1
        else
          execute_command (arg 2%nat)
      else if (command =? "chmod")%string then
        if argc <? 4 then
          log_message "Error: Missing arguments for chmod" ;;
          eprint ("Usage: " ++ arg 0%nat ++ " chmod <mode> <path>" ++ nl) ;;
          ret 1
        else
          let mode := CInt.to_u32 (strtol (arg 2%nat) 8) in
          modify_permissions (arg 3%nat) mode
      else if (command =? "chown")%string then
        if argc <? 5 then
          log_message "Error: Missing arguments for chown" ;;
          eprint ("Usage: " ++ arg 0%nat ++ " chown <uid> <gid> <path>" ++ nl) ;;
          ret 1
        else
          let uid := CInt.to_u32 (atoi (arg 2%nat)) in
          let gid := CInt.to_u32 (atoi (arg 3%nat)) in
          change_ownership (arg 4%nat) uid gid
      else
        log_message (snprintf BUFFER_SIZE ("Error: Unknown command: " ++ command)) ;;
        eprint ("Error: Unknown command: " ++ command ++ nl) ;;
        ret 1.

End Helper.

(** ** Sample environments *)

Definition w0 : World :=
  {| w_log := ""; w_syslog := []; w_stderr := ""; w_effects := [];
     w_logcalls := 0 |}.

(** 2024-03-09 14:05:07, local time. *)
Definition noon : tm :=
  {| tm_sec := 7; tm_min := 5; tm_hour := 14; tm_mday := 9; tm_mon := 2;
     tm_year := 124 |}.

Definition ENOENT : Z := 2.

(** Where [localtime] keeps its result in a statically linked image
    (0x4c6a40) and in a dynamically linked one (0x7ffff7dd6a60). *)
Definition static_tm : Z := 5007936.
Definition shared_tm : Z := 140737351871072.

(** Running as root (set-uid), called by user 501, statically linked;
    the log file opens and every operation succeeds. *)
Definition os_root : OS :=
  {| os_euid := 0; os_uid := 501;
     os_log_open := fun _ => true;
     os_localtime := fun _ => noon;
     os_tm_ptr := fun _ => static_tm;
     os_wild_strftime := fun _ => None;
     os_spawn_wait := fun _ _ => Exited 0;
     os_chmod := fun _ _ => SysOk;
     os_chown := fun _ _ _ => SysOk;
     os_strerror := fun _ => "Unknown error" |}.

(** Running as root, dynamically linked, where nothing works: the log
    file cannot be opened, the paths do not exist and the command exits
    with status 1. *)
Definition os_failing : OS :=
  {| os_euid := 0; os_uid := 501;
     os_log_open := fun _ => false;
     os_localtime := fun _ => noon;
     os_tm_ptr := fun _ => shared_tm;
     os_wild_strftime := fun _ => None;
     os_spawn_wait := fun _ _ => Exited 1;
     os_chmod := fun _ _ => SysErr ENOENT;
     os_chown := fun _ _ _ => SysErr ENOENT;
     os_strerror := fun _ => "No such file or directory" |}.

(** Running as root, dynamically linked: the log file opens, and the
    address of [localtime]'s result does not fit an [int]; reading at
    the cut address faults. *)
Definition os_dynamic : OS :=
  {| os_euid := 0; os_uid := 501;
     os_log_open := fun _ => true;
     os_localtime := fun _ => noon;
     os_tm_ptr := fun _ => shared_tm;
     os_wild_strftime := fun _ => None;
     os_spawn_wait := fun _ _ => Exited 0;
     os_chmod := fun _ _ => SysOk;
     os_chown := fun _ _ _ => SysOk;
     os_strerror := fun _ => "Unknown error" |}.

(** Not set-uid: the effective user is the caller, 501, who cannot open
    the log file. *)
Definition os_user : OS :=
  {| os_euid := 501; os_uid := 501;
     os_log_open := fun _ => false;
     os_localtime := fun _ => noon;
     os_tm_ptr := fun _ => shared_tm;
     os_wild_strftime := fun _ => None;
     os_spawn_wait := fun _ _ => Exited 0;
     os_chmod := fun _ _ => SysOk;
     os_chown := fun _ _ _ => SysOk;
     os_strerror := fun _ => "Unknown error" |}.

(** As [os_user], but the log file is writable by everyone and opens. *)
Definition os_user_open_log : OS :=
  {| os_euid := 501; os_uid := 501;
     os_log_open := fun _ => true;
     os_localtime := fun _ => noon;
     os_tm_ptr := fun _ => shared_tm;
     os_wild_strftime := fun _ => None;
     os_spawn_wait := fun _ _ => Exited 0;
     os_chmod := fun _ _ => SysOk;
     os_chown := fun _ _ _ => SysOk;
     os_strerror := fun _ => "Unknown error" |}.

(** The environment [os] seen by another caller. *)
Definition with_uid (os : OS) (uid : Z) : OS :=
  {| os_euid := os_euid os; os_uid := uid;
     os_log_open := os_log_open os;
     os_localtime := os_localtime os;
     os_tm_ptr := os_tm_ptr os;
     os_wild_strftime := os_wild_strftime os;
     os_spawn_wait := os_spawn_wait os;
     os_chmod := os_chmod os;
     os_chown := os_chown os;
     os_strerror := os_strerror os |}.


(** A command line of 4100 bytes. *)
Definition long_command : string :=
  string_of_list_ascii (repeat "a"%char 4100).

(** A command line of two lines. *)
Definition two_line_command : string := "true" ++ nl ++ "rm -rf /".

(** ** Vocabulary of the statements *)

(** The [int] the underlying primitive hands back for an operation. *)
Definition outcome_code (os : OS) (e : Effect) : Z :=
  match e with
  | EvSpawn path argv => wait_status (os_spawn_wait os path argv)
  | EvChmod path mode => sys_int (os_chmod os path mode)
  | EvChown path uid gid => sys_int (os_chown os path uid gid)
  end.

(** The [k]-th call of [log_message] returns: the file does not open,
    or [strftime] does not fault. *)
Definition log_returns (os : OS) (k : nat) : bool :=
  (negb (os_log_open os k) ||
   match time_str os k with Some _ => true | None => false end)%bool.

(** What a request made to the kernel may carry: the only program
    spawned is the shell, and modes and ids are unsigned 32-bit values. *)
Definition effect_fits (e : Effect) : Prop :=
  match e with
  | EvSpawn path argv => path = shell_path /\ exists cmd, argv = ["sh"; "-c"; cmd]
  | EvChmod _ mode => 0 <= mode < 2 ^ 32
  | EvChown _ uid gid => 0 <= uid < 2 ^ 32 /\ 0 <= gid < 2 ^ 32
  end.

Definition is_digit (c : ascii) : bool :=
  let n := nat_of_ascii c in (Nat.leb 48 n && Nat.leb n 57)%bool.

(** [matches_layout pat s]: [s] has the length of [pat], a decimal digit
    wherever [pat] has the letter d, and the character of [pat]
    elsewhere. *)
Fixpoint matches_layout (pat s : string) : bool :=
  match pat, s with
  | EmptyString, EmptyString => true
  | String p pat', String c s' =>
      ((if Ascii.eqb p "d" then is_digit c else Ascii.eqb p c)
       && matches_layout pat' s')%bool
  | _, _ => false
  end.

(** The same, for a prefix of [s]. *)
Fixpoint starts_with_layout (pat s : string) : bool :=
  match pat, s with
  | EmptyString, _ => true
  | String p pat', String c s' =>
      ((if Ascii.eqb p "d" then is_digit c else Ascii.eqb p c)
       && starts_with_layout pat' s')%bool
  | String _ _, EmptyString => false
  end.

(** The layout YYYY-MM-DD HH:MM:SS. *)
Definition is_timestamp (s : string) : bool :=
  matches_layout "dddd-dd-dd dd:dd:dd" s.

(** A line of the log file that begins [[YYYY-MM-DD HH:MM:SS] ]. *)
Definition has_stamp (line : string) : bool :=
  starts_with_layout "[dddd-dd-dd dd:dd:dd] " line.

Definition is_nl (c : ascii) : bool := Ascii.eqb c (ascii_of_nat 10).

Fixpoint has_nl (s : string) : bool :=
  match s with
  | EmptyString => false
  | String c r => (is_nl c || has_nl r)%bool
  end.

(** The physical lines of a text: the pieces between newlines, without
    them; [cur] is the piece being read. *)
Fixpoint lines_from (cur s : string) : list string :=
  match s with
  | EmptyString => match cur with EmptyString => [] | _ => [cur] end
  | String c r =>
      if is_nl c then cur :: lines_from "" r
      else lines_from (cur ++ String c "") r
  end.

Definition lines_of (s : string) : list string := lines_from "" s.

(** One entry of the log file whose message holds no newline. *)
Definition entry_ok (l : string) : Prop :=
  exists ts message,
    is_timestamp ts = true /\ has_nl message = false /\
    l = "[" ++ ts ++ "] " ++ message ++ nl.

(** The log file after [w'] is the log file after [w] followed by such
    entries. *)
Definition log_extends (w w' : World) : Prop :=
  exists entries,
    w_log w' = w_log w ++ String.concat "" entries /\ Forall entry_ok entries.

(** What [localtime] guarantees of its fields, for a year of four
    digits. *)
Definition tm_ok (t : tm) : Prop :=
  1000 <= tm_year t + 1900 <= 9999 /\
  0 <= tm_mon t <= 11 /\ 1 <= tm_mday t <= 31 /\
  0 <= tm_hour t <= 23 /\ 0 <= tm_min t <= 59 /\ 0 <= tm_sec t <= 60.

(** [P] holds at [lo], [lo + 1], ..., [lo + len - 1]. *)
Fixpoint all_from (P : Z -> bool) (lo : Z) (len : nat) : bool :=
  match len with
  | O => true
  | S k => (P lo && all_from P (lo + 1) k)%bool
  end.

(** A computation whose every run relates its initial to its final
    world by [R], whether it returns or the process is killed. *)
Definition respects (R : World -> World -> Prop) {A : Type} (m : M A) : Prop :=
  forall w, R w (snd (m w)).

(** What the log file receives for the messages [ms] sent to syslog, the
    first of them at the [k]-th call of [log_message]: a line for each
    call at which the file opened. *)
Fixpoint log_lines (os : OS) (k : nat) (ms : list string) : string :=
  match ms with
  | [] => ""
  | m :: ms' =>
      (if os_log_open os k
       then match time_str os k with
            | Some ts => "[" ++ ts ++ "] " ++ m ++ nl
            | None => ""
            end
       else "") ++ log_lines os (S k) ms'
  end.

(** The log file has received its line for each message sent to syslog,
    in the same order. *)
Definition mirrors (os : OS) (w w' : World) : Prop :=
  exists ms,
    w_syslog w' = (w_syslog w ++ ms)%list /\
    w_log w' = w_log w ++ log_lines os (w_logcalls w) ms /\
    w_logcalls w' = (w_logcalls w + List.length ms)%nat.

(** The message that records how the operation [e] ended. *)
Definition outcome_report (os : OS) (e : Effect) (msg : string) : Prop :=
  match e with
  | EvSpawn path argv =>
      msg = snprintf BUFFER_SIZE
              ("Command execution result: " ++
               fmt_d (wait_status (os_spawn_wait os path argv)))
  | EvChmod path mode =>
      msg = match os_chmod os path mode with
            | SysOk => "Permissions modified successfully"
            | SysErr e =>
                snprintf BUFFER_SIZE
                  ("Failed to modify permissions: " ++ os_strerror os e)
            end
  | EvChown path uid gid =>
      msg = match os_chown os path uid gid with
            | SysOk => "Ownership changed successfully"
            | SysErr e =>
                snprintf BUFFER_SIZE
                  ("Failed to change ownership: " ++ os_strerror os e)
            end
  end.

(** The two shapes of a run that returns [v].  Either it was refused:
    one error message is logged, a text is written to stderr, nothing is
    requested from the kernel and [v] is 1.  Or it was dispatched: one
    operation [e] is requested, one message is logged before it and the
    report of its outcome after it, the helper writes nothing to stderr
    and [v] is the value the primitive returned. *)
Definition refused (w : World) (v : Z) (w' : World) : Prop :=
  exists msg text,
    v = 1 /\
    w_effects w' = w_effects w /\
    w_syslog w' = (w_syslog w ++ [msg])%list /\
    prefix "Error: " msg = true /\
    w_stderr w' = w_stderr w ++ text /\ text <> "" /\
    (String.length msg < BUFFER_SIZE)%nat.

Definition dispatched (os : OS) (w : World) (v : Z) (w' : World) : Prop :=
  exists e m1 m2,
    v = outcome_code os e /\ effect_fits e /\
    w_effects w' = (w_effects w ++ [e])%list /\
    w_syslog w' = (w_syslog w ++ [m1; m2])%list /\
    outcome_report os e m2 /\
    w_stderr w' = w_stderr w.

(** A message that records a failure: an error of the invocation, a
    failed [chmod] or [chown] with the text of its [errno], or the value
    [v] that [system] returned. *)
Definition reports_failure (os : OS) (v : Z) (msg : string) : Prop :=
  prefix "Error: " msg = true \/
  (exists e, msg = snprintf BUFFER_SIZE
                     ("Failed to modify permissions: " ++ os_strerror os e)) \/
  (exists e, msg = snprintf BUFFER_SIZE
                     ("Failed to change ownership: " ++ os_strerror os e)) \/
  msg = snprintf BUFFER_SIZE ("Command execution result: " ++ fmt_d v).

(** Syslog has only received messages shorter than the buffer. *)
Definition sends_short (w w' : World) : Prop :=
  exists ms,
    w_syslog w' = (w_syslog w ++ ms)%list /\
    Forall (fun m => (String.length m < BUFFER_SIZE)%nat) ms.

(** The kernel has only received requests that fit. *)
Definition asks_fitting (w w' : World) : Prop :=
  exists new,
    w_effects w' = (w_effects w ++ new)%list /\ Forall effect_fits new.

(** The helper has written nothing to stderr. *)
Definition stderr_kept (w w' : World) : Prop := w_stderr w' = w_stderr w.


(** * Properties *)

(** ** How [main] reaches each operation *)

Ltac run_monad :=
  unfold execute_command, modify_permissions, change_ownership,
    system, chmod, chown, log_message, eprint, perform, bind, ret;
  cbn [fst snd w_log w_syslog w_stderr w_effects w_logcalls].

(** Decide each test a call of [log_message] makes: whether the file
    opens and whether [strftime] faults. *)
Ltac log_cases :=
  repeat (cbn [fst snd w_log w_syslog w_stderr w_effects w_logcalls];
          match goal with
          | |- context [if os_log_open ?os ?k then _ else _] =>
              destruct (os_log_open os k) eqn:?
          | |- context [match time_str ?os ?k with _ => _ end] =>
              destruct (time_str os k) eqn:?
          end);
  cbn [fst snd w_log w_syslog w_stderr w_effects w_logcalls].

(** Decide the comparisons of [argc] with a literal once the shape of
    [argv] is known. *)
Ltac argc_cases :=
  cbn [List.length nth];
  repeat match goal with
    | |- context [Z.of_nat (S ?n) <? ?k] =>
        let H := fresh "Hargc" in
        destruct (Z.ltb_spec (Z.of_nat (S n)) k) as [H | H];
        [ try (exfalso; cbn [List.length] in H; lia)
        | try (exfalso; cbn [List.length] in H; lia) ]
    end.

(** Split [main] into its branches: every test of [main] is decided one
    way or the other. *)
Ltac main_branches :=
  unfold main;
  repeat match goal with
    | |- context [if ?c then _ else _] => destruct c
    end.

Lemma main_not_root (os : OS) (argv : list string) (w : World) :
  os_euid os <> 0 ->
  main os argv w =
    (log_message os "Error: JanetHelper must be run as root" ;;
     eprint ("Error: JanetHelper must be run as root" ++ nl) ;;
     ret 1) w.
Proof.
  intros Hne. unfold main.
  destruct (Z.eqb_spec (os_euid os) 0) as [He | _]; [contradiction | reflexivity].
Qed.

Lemma main_exec (os : OS) (a0 cmd : string) (rest : list string) (w : World) :
  os_euid os = 0 ->
  main os (a0 :: "exec" :: cmd :: rest) w = execute_command os cmd w.
Proof.
  intros He. unfold main. rewrite He. cbn [Z.eqb negb is_authorized].
  argc_cases; reflexivity.
Qed.

Lemma main_chmod (os : OS) (a0 m p : string) (rest : list string) (w : World) :
  os_euid os = 0 ->
  main os (a0 :: "chmod" :: m :: p :: rest) w =
    modify_permissions os p (CInt.to_u32 (strtol m 8)) w.
Proof.
  intros He. unfold main. rewrite He. cbn [Z.eqb negb is_authorized].
  argc_cases; reflexivity.
Qed.

Lemma main_chown (os : OS) (a0 u g p : string) (rest : list string) (w : World) :
  os_euid os = 0 ->
  main os (a0 :: "chown" :: u :: g :: p :: rest) w =
    change_ownership os p (CInt.to_u32 (atoi u)) (CInt.to_u32 (atoi g)) w.
Proof.
  intros He. unfold main. rewrite He. cbn [Z.eqb negb is_authorized].
  argc_cases; reflexivity.
Qed.

(** ** A call of [log_message] *)

Lemma log_returns_false (os : OS) (k : nat) :
  log_returns os k = false <->
  os_log_open os k = true /\ time_str os k = None.
Proof.
  unfold log_returns.
  destruct (os_log_open os k); destruct (time_str os k); cbn;
    split; try discriminate; try (intros [H1 H2]; discriminate); auto.
Qed.

(** A computation that begins with a call of [log_message] that does not
    return leaves the world as it was. *)
Lemma killed_at_first_log
    {A : Type} (os : OS) (msg : string) (k : M A) (w : World) :
  log_returns os (w_logcalls w) = false ->
  (log_message os msg ;; k) w = (None, w).
Proof.
  intros H. apply log_returns_false in H as [Ho Ht].
  unfold bind, log_message. rewrite Ho, Ht. reflexivity.
Qed.

(** Every path of [main] begins with a call of [log_message]. *)
Lemma main_killed (os : OS) (argv : list string) (w : World) :
  log_returns os (w_logcalls w) = false -> main os argv w = (None, w).
Proof.
  intros H.
  main_branches;
    unfold execute_command, modify_permissions, change_ownership;
    cbv zeta; apply killed_at_first_log; exact H.
Qed.

Lemma usage_branch (os : OS) (msg out : string) (w : World) :
  log_returns os (w_logcalls w) = true ->
  fst ((log_message os msg ;; eprint out ;; ret 1) w) = Some 1 /\
  w_effects (snd ((log_message os msg ;; eprint out ;; ret 1) w)) = w_effects w.
Proof.
  unfold log_returns. run_monad. log_cases; cbn; intros H;
    try discriminate H; split; reflexivity.
Qed.

Lemma execute_command_effects (os : OS) (cmd : string) (w : World) :
  log_returns os (w_logcalls w) = true ->
  w_effects (snd (execute_command os cmd w)) =
    (w_effects w ++ [EvSpawn shell_path ["sh"; "-c"; cmd]])%list /\
  forall v, fst (execute_command os cmd w) = Some v ->
            v = wait_status (os_spawn_wait os shell_path ["sh"; "-c"; cmd]).
Proof.
  unfold log_returns. run_monad. log_cases; cbn; intros H;
    try discriminate H; (split; [reflexivity |]); intros v Hv;
    try discriminate Hv; injection Hv as <-; reflexivity.
Qed.

Lemma modify_permissions_effects (os : OS) (p : string) (m : Z) (w : World) :
  log_returns os (w_logcalls w) = true ->
  w_effects (snd (modify_permissions os p m w)) =
    (w_effects w ++ [EvChmod p m])%list /\
  forall v, fst (modify_permissions os p m w) = Some v ->
            v = sys_int (os_chmod os p m).
Proof.
  unfold log_returns. run_monad.
  destruct (os_chmod os p m); cbn [sys_int Z.eqb negb];
    log_cases; cbn; intros H;
    try discriminate H; (split; [reflexivity |]); intros v Hv;
    try discriminate Hv; injection Hv as <-; reflexivity.
Qed.

Lemma change_ownership_effects (os : OS) (p : string) (u g : Z) (w : World) :
  log_returns os (w_logcalls w) = true ->
  w_effects (snd (change_ownership os p u g w)) =
    (w_effects w ++ [EvChown p u g])%list /\
  forall v, fst (change_ownership os p u g w) = Some v ->
            v = sys_int (os_chown os p u g).
Proof.
  unfold log_returns. run_monad.
  destruct (os_chown os p u g); cbn [sys_int Z.eqb negb];
    log_cases; cbn; intros H;
    try discriminate H; (split; [reflexivity |]); intros v Hv;
    try discriminate Hv; injection Hv as <-; reflexivity.
Qed.

(** ** Authorization *)

(** C1, as the code has it: [is_authorized] accepts every caller, and
    the run of [main] does not depend on who the caller is: the same
    arguments give the same exit value and the same footprint for any two
    real user ids. *)
Theorem is_authorized_accepts_every_caller
    (os : OS) (uid : Z) (argv : list string) (w : World) :
  is_authorized uid = true /\
  main (with_uid os uid) argv w = main os argv w.
Proof.
  split; reflexivity.
Qed.

(** C1, as the specification words it, fails: whatever list of permitted
    identities one picks, a caller outside it is not denied. *)
Lemma unlisted_caller_is_not_denied :
  ~ (forall (allow : list Z) (uid : Z),
        ~ In uid allow -> is_authorized uid = false).
Proof.
  intros H. specialize (H [0] 501).
  assert (Hout : ~ In 501 [0]) by (cbn; intros [E | []]; discriminate E).
  apply H in Hout. discriminate Hout.
Qed.

(** ** Running a command *)

(** C2, as the code has it: when the helper runs as root and its first
    call of [log_message] returns, an [exec] request is handed to
    [execute_command] whatever the command and whoever the caller is; no
    list of permitted commands is consulted and [system] is asked to run
    the shell on that command line. *)
Theorem exec_dispatches_any_command
    (os : OS) (a0 cmd : string) (rest : list string) (w : World) :
  os_euid os = 0 ->
  log_returns os (w_logcalls w) = true ->
  main os (a0 :: "exec" :: cmd :: rest) w = execute_command os cmd w /\
  In (EvSpawn shell_path ["sh"; "-c"; cmd])
     (w_effects (snd (main os (a0 :: "exec" :: cmd :: rest) w))).
Proof.
  intros He Hlog. rewrite (main_exec os a0 cmd rest w He).
  split; [reflexivity |].
  destruct (execute_command_effects os cmd w Hlog) as [Heff _].
  rewrite Heff. apply in_or_app. right. left. reflexivity.
Qed.

Lemma exec_dispatches_any_command_witness :
  os_euid os_root = 0 /\ log_returns os_root (w_logcalls w0) = true /\
  In (EvSpawn shell_path ["sh"; "-c"; "rm -rf /"])
     (w_effects (snd (main os_root ["JanetHelper"; "exec"; "rm -rf /"] w0))).
Proof.
  split; [reflexivity |]. split; [reflexivity |].
  apply (exec_dispatches_any_command os_root "JanetHelper" "rm -rf /" [] w0);
    reflexivity.
Defined.

(** C2, as the specification words it, fails: for no choice of a list of
    permitted commands does a command outside it leave the requests made
    to the kernel unchanged.  In [os_failing] the shell is asked for, does
    run, and exits with status 1. *)
Lemma unlisted_command_is_spawned :
  ~ (forall (allowed : list string) (os : OS) (a0 cmd : string) (w : World),
        ~ In cmd allowed ->
        w_effects (snd (main os [a0; "exec"; cmd] w)) = w_effects w).
Proof.
  intros H.
  specialize (H [] os_failing "JanetHelper" "rm -rf /" w0 (fun F => F)).
  vm_compute in H. discriminate H.
Qed.

(** C3, as the code has it: once its first call of [log_message] has
    returned, [execute_command] hands the command line, unchanged, to
    [system]: the program asked for is the shell with the argument vector
    [sh -c command_line]; and a value [execute_command] returns is the
    one [system] returned (the wait status of that shell, or [-1]). *)
Theorem execute_command_runs_the_shell (os : OS) (cmd : string) (w : World) :
  log_returns os (w_logcalls w) = true ->
  w_effects (snd (execute_command os cmd w)) =
    (w_effects w ++ [EvSpawn "/bin/sh" ["sh"; "-c"; cmd]])%list /\
  forall v, fst (execute_command os cmd w) = Some v ->
            v = wait_status (os_spawn_wait os "/bin/sh" ["sh"; "-c"; cmd]).
Proof.
  exact (execute_command_effects os cmd w).
Qed.

Lemma execute_command_runs_the_shell_witness :
  log_returns os_failing (w_logcalls w0) = true /\
  w_effects (snd (execute_command os_failing "ls -l /tmp" w0)) =
    [EvSpawn "/bin/sh" ["sh"; "-c"; "ls -l /tmp"]].
Proof.
  split; [reflexivity |].
  apply (execute_command_runs_the_shell os_failing "ls -l /tmp" w0).
  reflexivity.
Defined.

(** C3, as the specification words it, fails: [exec "ls -l /tmp"] asks
    for the shell on the whole command line and never for [ls] with its
    argument vector; and when that child exits with status 1 the outcome
    is the wait status 256. *)
Lemma exec_goes_through_the_shell :
  let r := main os_failing ["JanetHelper"; "exec"; "ls -l /tmp"] w0 in
  w_effects (snd r) = [EvSpawn "/bin/sh" ["sh"; "-c"; "ls -l /tmp"]] /\
  ~ In (EvSpawn "/bin/ls" ["ls"; "-l"; "/tmp"]) (w_effects (snd r)) /\
  os_spawn_wait os_failing "/bin/sh" ["sh"; "-c"; "ls -l /tmp"] = Exited 1 /\
  fst r = Some 256.
Proof.
  cbv zeta. repeat split.
  vm_compute. intros [E | []]. discriminate E.
Qed.


(** ** Killed in [log_message] *)

(** C6, on the code: every path of [main] begins with a call of
    [log_message].  When the log file opens at that call, the pointer
    [localtime] returned does not fit an [int] and the read at the cut
    address faults, the process is killed there: [main] returns nothing,
    and nothing has been written to the log file, to syslog or to
    stderr, nor requested from the kernel, whatever the arguments and so
    on every failure path. *)
Theorem cut_tm_pointer_kills_the_run
    (os : OS) (argv : list string) (w : World) :
  os_log_open os (w_logcalls w) = true ->
  CInt.to_int (os_tm_ptr os (w_logcalls w)) <> os_tm_ptr os (w_logcalls w) ->
  os_wild_strftime os (CInt.to_int (os_tm_ptr os (w_logcalls w))) = None ->
  fst (main os argv w) = None /\
  w_log (snd (main os argv w)) = w_log w /\
  w_syslog (snd (main os argv w)) = w_syslog w /\
  w_stderr (snd (main os argv w)) = w_stderr w /\
  w_effects (snd (main os argv w)) = w_effects w.
Proof.
  intros Hopen Hcut Hwild.
  rewrite (main_killed os argv w); [repeat split |].
  apply log_returns_false. split; [exact Hopen |].
  unfold time_str. cbv zeta.
  destruct (Z.eqb_spec (CInt.to_int (os_tm_ptr os (w_logcalls w)))
              (os_tm_ptr os (w_logcalls w))) as [E | _];
    [contradiction | exact Hwild].
Qed.

Lemma cut_tm_pointer_kills_the_run_witness :
  os_log_open os_dynamic (w_logcalls w0) = true /\
  CInt.to_int (os_tm_ptr os_dynamic (w_logcalls w0)) <>
    os_tm_ptr os_dynamic (w_logcalls w0) /\
  fst (main os_dynamic ["JanetHelper"; "chmod"; "755"; "/nonexistent"] w0) = None /\
  w_syslog (snd (main os_dynamic
                   ["JanetHelper"; "chmod"; "755"; "/nonexistent"] w0)) = [] /\
  w_log (snd (main os_dynamic
                ["JanetHelper"; "chmod"; "755"; "/nonexistent"] w0)) = "".
Proof.
  assert (Hcut : CInt.to_int (os_tm_ptr os_dynamic (w_logcalls w0)) <>
                 os_tm_ptr os_dynamic (w_logcalls w0))
    by (vm_compute; discriminate).
  split; [reflexivity |]. split; [exact Hcut |].
  destruct (cut_tm_pointer_kills_the_run
              os_dynamic ["JanetHelper"; "chmod"; "755"; "/nonexistent"] w0
              eq_refl Hcut eq_refl)
    as (Hret & Hlog & Hsys & _).
  split; [exact Hret |]. split; [exact Hsys | exact Hlog].
Defined.

(** ** Not running as root *)

(** C9, on the code: when the effective user id is not 0, whatever the
    arguments, no privileged operation is requested.  If the first call
    of [log_message] returns, [main] returns 1 with the error written to
    stderr and to syslog, and appended to the log file if it opened.  If
    that call does not return (the log file opens and [strftime] faults
    on the cut pointer), the process is killed: [main] returns nothing
    and the error reaches neither stderr nor syslog nor the file. *)
Theorem not_root_is_refused_unless_killed
    (os : OS) (argv : list string) (w : World) :
  os_euid os <> 0 ->
  let msg := "Error: JanetHelper must be run as root" in
  let k := w_logcalls w in
  let r := main os argv w in
  w_effects (snd r) = w_effects w /\
  (log_returns os k = true ->
   fst r = Some 1 /\
   w_stderr (snd r) = w_stderr w ++ msg ++ nl /\
   w_syslog (snd r) = (w_syslog w ++ [msg])%list /\
   w_log (snd r) =
     if os_log_open os k
     then match time_str os k with
          | Some ts => w_log w ++ "[" ++ ts ++ "] " ++ msg ++ nl
          | None => w_log w
          end
     else w_log w) /\
  (log_returns os k = false ->
   fst r = None /\
   w_stderr (snd r) = w_stderr w /\
   w_syslog (snd r) = w_syslog w /\
   w_log (snd r) = w_log w).
Proof.
  intros Hne msg k r. subst r k. split; [| split].
  - destruct (log_returns os (w_logcalls w)) eqn:Hlog.
    + rewrite (main_not_root os argv w Hne).
      apply (usage_branch os _ _ w Hlog).
    + rewrite (main_killed os argv w Hlog). reflexivity.
  - rewrite (main_not_root os argv w Hne). unfold log_returns.
    run_monad. log_cases; cbn; intros H; try discriminate H; repeat split.
  - intros Hlog. rewrite (main_killed os argv w Hlog). repeat split.
Qed.

Lemma not_root_is_refused_unless_killed_witness :
  os_euid os_user_open_log <> 0 /\
  log_returns os_user_open_log (w_logcalls w0) = false /\
  fst (main os_user_open_log ["JanetHelper"; "exec"; "id"] w0) = None /\
  w_stderr (snd (main os_user_open_log ["JanetHelper"; "exec"; "id"] w0)) = "" /\
  os_euid os_user <> 0 /\
  log_returns os_user (w_logcalls w0) = true /\
  fst (main os_user ["JanetHelper"; "exec"; "id"] w0) = Some 1.
Proof.
  assert (Hne : os_euid os_user_open_log <> 0) by discriminate.
  assert (Hne' : os_euid os_user <> 0) by discriminate.
  destruct (not_root_is_refused_unless_killed
              os_user_open_log ["JanetHelper"; "exec"; "id"] w0 Hne)
    as (_ & _ & Hkilled).
  destruct (Hkilled eq_refl) as (Hret & Herr & _).
  destruct (not_root_is_refused_unless_killed
              os_user ["JanetHelper"; "exec"; "id"] w0 Hne')
    as (_ & Hreturns & _).
  destruct (Hreturns eq_refl) as (Hret' & _).
  repeat split; try assumption.
Defined.

(** ** Arguments of [chmod] and [chown] *)

(** C4, as the code has it: the only check on a [chmod] or [chown]
    invocation is the number of arguments.  When the helper runs as
    root and its first call of [log_message] returns: with two (three
    for [chown]) or more arguments after the verb the operation is
    dispatched, on the path as given, with the mode [strtol] reads in
    base 8 and the ids [atoi] reads, converted to the unsigned type;
    with fewer, [main] returns 1 and dispatches nothing. *)
Theorem chmod_chown_only_count_arguments
    (os : OS) (a0 : string) (args : list string) (w : World) :
  os_euid os = 0 ->
  log_returns os (w_logcalls w) = true ->
  match args with
  | m :: p :: _ =>
      w_effects (snd (main os (a0 :: "chmod" :: args) w)) =
        (w_effects w ++ [EvChmod p (CInt.to_u32 (strtol m 8))])%list
  | _ =>
      fst (main os (a0 :: "chmod" :: args) w) = Some 1 /\
      w_effects (snd (main os (a0 :: "chmod" :: args) w)) = w_effects w
  end /\
  match args with
  | u :: g :: p :: _ =>
      w_effects (snd (main os (a0 :: "chown" :: args) w)) =
        (w_effects w ++
         [EvChown p (CInt.to_u32 (atoi u)) (CInt.to_u32 (atoi g))])%list
  | _ =>
      fst (main os (a0 :: "chown" :: args) w) = Some 1 /\
      w_effects (snd (main os (a0 :: "chown" :: args) w)) = w_effects w
  end.
Proof.
  intros He Hlog. split.
  - destruct args as [| m [| p rest]].
    + unfold main. rewrite He. apply usage_branch, Hlog.
    + unfold main. rewrite He. apply usage_branch, Hlog.
    + rewrite (main_chmod os a0 m p rest w He).
      apply modify_permissions_effects, Hlog.
  - destruct args as [| u [| g [| p rest]]].
    + unfold main. rewrite He. apply usage_branch, Hlog.
    + unfold main. rewrite He. apply usage_branch, Hlog.
    + unfold main. rewrite He. apply usage_branch, Hlog.
    + rewrite (main_chown os a0 u g p rest w He).
      apply change_ownership_effects, Hlog.
Qed.

Lemma chmod_chown_only_count_arguments_witness :
  os_euid os_root = 0 /\ log_returns os_root (w_logcalls w0) = true /\
  w_effects (snd (main os_root ["JanetHelper"; "chmod"; "644"; "/tmp/f"] w0)) =
    [EvChmod "/tmp/f" 420] /\
  fst (main os_root ["JanetHelper"; "chown"; "644"; "/tmp/f"] w0) = Some 1.
Proof.
  split; [reflexivity |]. split; [reflexivity |].
  destruct (chmod_chown_only_count_arguments
              os_root "JanetHelper" ["644"; "/tmp/f"] w0 eq_refl eq_refl)
    as [Hchmod [Hchown _]].
  split; [exact Hchmod | exact Hchown].
Defined.

(** C4, as the specification words it, fails: a mode that is no octal
    number and an empty path reach [chmod] (as mode 0, on a path that
    does not exist), and a negative uid and a gid that is no number reach
    [chown] (as 4294967295 and 0). *)
Lemma malformed_arguments_are_dispatched :
  w_effects (snd (main os_failing ["JanetHelper"; "chmod"; "rwx"; ""] w0)) =
    [EvChmod "" 0] /\
  w_effects
    (snd (main os_failing ["JanetHelper"; "chown"; "-1"; "staff"; "/tmp/f"] w0)) =
    [EvChown "/tmp/f" 4294967295 0].
Proof.
  repeat split.
Qed.

(** ** Strings, numbers and layouts *)

Lemma string_app_assoc (a b c : string) : (a ++ b) ++ c = a ++ (b ++ c).
Proof.
  induction a as [| x a IH]; cbn; [reflexivity | now rewrite IH].
Qed.

Lemma string_app_nil_r (a : string) : a ++ "" = a.
Proof.
  induction a as [| x a IH]; cbn; [reflexivity | now rewrite IH].
Qed.

Lemma concat_empty_app (l1 l2 : list string) :
  String.concat "" (l1 ++ l2) = String.concat "" l1 ++ String.concat "" l2.
Proof.
  induction l1 as [| x l1 IH]; [reflexivity |].
  destruct l1 as [| y l1].
  - cbn [app String.concat]. destruct l2 as [| z l2].
    + now rewrite string_app_nil_r.
    + reflexivity.
  - change (String.concat "" ((x :: y :: l1) ++ l2))
      with (x ++ "" ++ String.concat "" ((y :: l1) ++ l2)).
    change (String.concat "" (x :: y :: l1))
      with (x ++ "" ++ String.concat "" (y :: l1)).
    rewrite IH. cbn [append]. now rewrite string_app_assoc.
Qed.

Lemma matches_layout_app (p1 p2 s1 s2 : string) :
  matches_layout p1 s1 = true -> matches_layout p2 s2 = true ->
  matches_layout (p1 ++ p2) (s1 ++ s2) = true.
Proof.
  revert s1. induction p1 as [| p p1 IH]; intros [| c s1] H1 H2;
    cbn in H1 |- *; try discriminate H1; [exact H2 |].
  apply andb_true_iff in H1 as [Hc Hrest].
  rewrite Hc. cbn. apply IH; assumption.
Qed.

(** A boolean property checked on a whole interval holds at each of its
    points. *)
Lemma checked_on_range (P : Z -> bool) (len : nat) :
  forall lo,
    all_from P lo len = true ->
    forall z, lo <= z < lo + Z.of_nat len -> P z = true.
Proof.
  induction len as [| len IH]; intros lo Hall z Hz; [lia |].
  cbn [all_from] in Hall. apply andb_true_iff in Hall as [Hlo Hrest].
  destruct (Z.eq_dec z lo) as [-> | Hne]; [exact Hlo |].
  apply (IH (lo + 1) Hrest). lia.
Qed.

Lemma year_layout (y : Z) :
  1000 <= y <= 9999 -> matches_layout "dddd" (fmt_d y) = true.
Proof.
  intros Hy.
  apply (checked_on_range (fun z => matches_layout "dddd" (fmt_d z))
           (Z.to_nat 9000) 1000).
  - vm_compute. reflexivity.
  - lia.
Qed.

Lemma pad2_layout (n : Z) :
  0 <= n <= 99 -> matches_layout "dd" (pad2 n) = true.
Proof.
  intros Hn.
  apply (checked_on_range (fun z => matches_layout "dd" (pad2 z))
           (Z.to_nat 100) 0).
  - vm_compute. reflexivity.
  - lia.
Qed.

Lemma strftime_layout (t : tm) : tm_ok t -> is_timestamp (strftime t) = true.
Proof.
  intros (Hy & Hmo & Hd & Hh & Hmi & Hs).
  unfold is_timestamp, strftime.
  change "dddd-dd-dd dd:dd:dd"
    with ("dddd" ++ "-" ++ "dd" ++ "-" ++ "dd" ++ " " ++ "dd" ++ ":" ++
          "dd" ++ ":" ++ "dd").
  repeat first
    [ apply year_layout; lia
    | apply pad2_layout; lia
    | reflexivity
    | apply matches_layout_app ].
Qed.

Lemma accum_uint_acc (d : Decimal.uint) :
  forall acc : positive,
    accum 10 (Zpos acc) (NilEmpty.string_of_uint d) =
      Zpos (Pos.of_uint_acc d acc).
Proof.
  induction d as [| d IH | d IH | d IH | d IH | d IH | d IH | d IH | d IH
                  | d IH | d IH]; intros acc;
    [ reflexivity | .. ];
    cbn [NilEmpty.string_of_uint accum Pos.of_uint_acc];
    match goal with
    | |- context [digit_val 10 ?c] =>
        let v := eval vm_compute in (digit_val 10 c) in
        change (digit_val 10 c) with v
    end;
    cbv iota beta; rewrite <- IH; f_equal; lia.
Qed.

Lemma accum_uint (d : Decimal.uint) :
  accum 10 0 (NilEmpty.string_of_uint d) = Z.of_N (Pos.of_uint d).
Proof.
  induction d as [| d IH | d IH | d IH | d IH | d IH | d IH | d IH | d IH
                  | d IH | d IH];
    [ reflexivity | exact IH | .. ];
    cbn [NilEmpty.string_of_uint accum Pos.of_uint Z.of_N];
    rewrite <- accum_uint_acc; reflexivity.
Qed.

(** A string that begins with a digit has no white space and no sign to
    skip. *)
Lemma strtol_digit_head (c : ascii) (s : string) (base : Z) :
  is_digit c = true ->
  strtol (String c s) base = CInt.clamp_long (accum base 0 (String c s)).
Proof.
  destruct c as [[] [] [] [] [] [] [] []]; intros Hd;
    try discriminate Hd; reflexivity.
Qed.

Lemma string_of_uint_head (d : Decimal.uint) :
  d <> Decimal.Nil ->
  exists c s,
    NilZero.string_of_uint d = String c s /\
    NilEmpty.string_of_uint d = String c s /\ is_digit c = true.
Proof.
  destruct d; intros Hd; [contradiction | ..];
    eexists; eexists; repeat split.
Qed.

Lemma accum_pos_decimal (p : positive) :
  accum 10 0 (NilZero.string_of_uint (Pos.to_uint p)) = Zpos p.
Proof.
  destruct (string_of_uint_head (Pos.to_uint p)
              (DecimalPos.Unsigned.to_uint_nonnil p)) as (c & s & Hz & He & _).
  rewrite Hz, <- He, accum_uint, DecimalPos.Unsigned.of_to. reflexivity.
Qed.

(** [strtol] reads back what [%d] prints, up to saturation. *)
Lemma strtol_fmt_d (z : Z) : strtol (fmt_d z) 10 = CInt.clamp_long z.
Proof.
  unfold fmt_d. destruct z as [| p | p]; [reflexivity | |].
  - cbn [Z.to_int NilZero.string_of_int].
    destruct (string_of_uint_head (Pos.to_uint p)
                (DecimalPos.Unsigned.to_uint_nonnil p)) as (c & s & Hz & _ & Hc).
    rewrite <- (accum_pos_decimal p). rewrite Hz.
    apply strtol_digit_head, Hc.
  - cbn [Z.to_int NilZero.string_of_int].
    change (strtol (String "-" (NilZero.string_of_uint (Pos.to_uint p))) 10)
      with (CInt.clamp_long
              (- accum 10 0 (NilZero.string_of_uint (Pos.to_uint p)))).
    rewrite accum_pos_decimal. reflexivity.
Qed.

Lemma accum_of_pos :
  forall (p : positive) (rest : string) (base : N),
    accum 8 (Z.of_N base) (OctalString.Raw.of_pos p rest) =
      accum 8 (Z.of_N match base with
                      | N0 => Npos p
                      | Npos v => Npos (OctalString.pos_oct_app v p)
                      end) rest.
Proof.
  fix IH 1. intros p rest base.
  do 3 try destruct p as [p | p |]; destruct base as [| v];
    cbn [OctalString.Raw.of_pos OctalString.pos_oct_app];
    try rewrite IH;
    cbn [accum];
    match goal with
    | |- context [digit_val 8 ?c] =>
        let d := eval vm_compute in (digit_val 8 c) in
        change (digit_val 8 c) with d
    end;
    cbv iota beta; f_equal; cbn [Z.of_N OctalString.pos_oct_app]; lia.
Qed.

Lemma of_pos_head :
  forall (p : positive) (rest : string),
    exists c s, OctalString.Raw.of_pos p rest = String c s /\ is_digit c = true.
Proof.
  fix IH 1. intros p rest.
  do 3 try destruct p as [p | p |]; cbn [OctalString.Raw.of_pos];
    try apply IH; eexists; eexists; split; reflexivity.
Qed.

(** [strtol] in base 8 reads back what [%o] prints, up to saturation. *)
Lemma strtol_fmt_o (m : Z) : 0 <= m -> strtol (fmt_o m) 8 = CInt.clamp_long m.
Proof.
  intros Hm. destruct m as [| p | p]; [reflexivity | | lia].
  cbn [fmt_o]. destruct (of_pos_head p "") as (c & s & Hs & Hc).
  rewrite Hs, (strtol_digit_head c s 8 Hc), <- Hs.
  f_equal. exact (accum_of_pos p "" N0).
Qed.

Lemma length_append (a b : string) :
  String.length (a ++ b) = (String.length a + String.length b)%nat.
Proof.
  induction a as [| c a IH]; cbn; [reflexivity | now rewrite IH].
Qed.

Lemma substring_length_le (n : nat) :
  forall s, (String.length (substring 0 n s) <= n)%nat.
Proof.
  induction n as [| n IH]; intros [| c s]; cbn; try lia.
  specialize (IH s). lia.
Qed.

Lemma substring_all (n : nat) :
  forall s, (String.length s <= n)%nat -> substring 0 n s = s.
Proof.
  induction n as [| n IH]; intros [| c s] Hlen; cbn in *;
    try reflexivity; try lia.
  f_equal. apply IH. lia.
Qed.

Lemma substring_cut (n : nat) :
  forall s, (n <= String.length s)%nat -> String.length (substring 0 n s) = n.
Proof.
  induction n as [| n IH]; intros [| c s] Hlen; cbn in *;
    try reflexivity; try lia.
  f_equal. apply IH. lia.
Qed.

Lemma snprintf_fits (s : string) :
  (String.length (snprintf BUFFER_SIZE s) < BUFFER_SIZE)%nat.
Proof.
  unfold snprintf.
  pose proof (substring_length_le (BUFFER_SIZE - 1) s) as H.
  unfold BUFFER_SIZE in *. lia.
Qed.

Lemma to_u32_range (x : Z) : 0 <= CInt.to_u32 x < 2 ^ 32.
Proof.
  unfold CInt.to_u32. apply Z.mod_pos_bound. reflexivity.
Qed.




Lemma id_read_back (u : Z) :
  0 <= u <= CInt.INT_MAX -> CInt.to_u32 (atoi (fmt_d u)) = u.
Proof.
  unfold CInt.INT_MAX. intros Hu.
  unfold atoi. rewrite strtol_fmt_d.
  unfold CInt.clamp_long, CInt.LONG_MIN, CInt.LONG_MAX.
  destruct (Z.ltb_spec u (-9223372036854775808)); [lia |].
  destruct (Z.ltb_spec 9223372036854775807 u); [lia |].
  unfold CInt.to_int, CInt.to_u32, CInt.INT_MAX.
  change (2 ^ 32) with 4294967296.
  rewrite (Z.mod_small u) by lia.
  destruct (Z.leb_spec u 2147483647); [| lia].
  apply Z.mod_small. lia.
Qed.

Lemma mode_read_back (m : Z) :
  0 <= m < 2 ^ 32 -> CInt.to_u32 (strtol (fmt_o m) 8) = m.
Proof.
  change (2 ^ 32) with 4294967296. intros Hm.
  rewrite strtol_fmt_o by lia.
  unfold CInt.clamp_long, CInt.LONG_MIN, CInt.LONG_MAX.
  destruct (Z.ltb_spec m (-9223372036854775808)); [lia |].
  destruct (Z.ltb_spec 9223372036854775807 m); [lia |].
  unfold CInt.to_u32. change (2 ^ 32) with 4294967296.
  apply Z.mod_small. lia.
Qed.

Lemma list_snoc_neq {A : Type} (l : list A) (x : A) : (l ++ [x])%list <> l.
Proof.
  intros H. apply (f_equal (@List.length A)) in H.
  rewrite length_app in H. cbn in H. lia.
Qed.

Lemma string_app_neq (a b : string) : b <> "" -> a ++ b <> a.
Proof.
  intros Hb H. apply (f_equal String.length) in H.
  rewrite length_append in H. destruct b; [contradiction | cbn in H; lia].
Qed.

Lemma low_byte_of_wait_status (code : Z) :
  exit_status (wait_status (Exited code)) = 0.
Proof.
  unfold exit_status, wait_status.
  change 255 with (Z.ones 8).
  rewrite Z.land_ones, Z.shiftl_mul_pow2 by lia.
  apply Z.mod_mul. discriminate.
Qed.

Lemma executing_length (cmd : string) :
  String.length ("Executing command: " ++ cmd) = (19 + String.length cmd)%nat.
Proof.
  rewrite length_append. reflexivity.
Qed.

Lemma snprintf_head (c : ascii) (s : string) :
  snprintf BUFFER_SIZE (String c s) =
    String c (substring 0 (BUFFER_SIZE - 2) s).
Proof.
  reflexivity.
Qed.

(** ** What every run preserves *)

Section Respects.

Variable R : World -> World -> Prop.
Hypothesis R_refl : forall w, R w w.
Hypothesis R_trans : forall w1 w2 w3, R w1 w2 -> R w2 w3 -> R w1 w3.

Lemma respects_ret {A : Type} (a : A) : respects R (ret a).
Proof.
  intros w. apply R_refl.
Qed.

Lemma respects_bind {A B : Type} (m : M A) (k : A -> M B) :
  respects R m -> (forall a, respects R (k a)) -> respects R (bind m k).
Proof.
  intros Hm Hk w. unfold bind.
  specialize (Hm w). destruct (m w) as [[a |] w1]; cbn [snd] in *.
  - apply R_trans with w1; [exact Hm | apply Hk].
  - exact Hm.
Qed.

Lemma respects_if {A : Type} (c : bool) (m1 m2 : M A) :
  respects R m1 -> respects R m2 -> respects R (if c then m1 else m2).
Proof.
  destruct c; auto.
Qed.

End Respects.

(** Follow the syntax of a computation down to its primitive steps;
    [log], [err] and [op] settle a call of [log_message], [eprint] and
    [perform]. *)
Ltac respects_walk refl trans log err op :=
  lazymatch goal with
  | |- respects _ (if _ then _ else _) =>
      apply respects_if; respects_walk refl trans log err op
  | |- respects _ (bind _ _) =>
      apply (respects_bind _ trans);
      [ respects_walk refl trans log err op
      | intro; respects_walk refl trans log err op ]
  | |- respects _ (ret _) => apply (respects_ret _ refl)
  | |- respects _ (log_message _ _) => log
  | |- respects _ (eprint _) => err
  | |- respects _ (perform _) => op
  | |- respects _ (system _ _) =>
      unfold system; cbv zeta; respects_walk refl trans log err op
  | |- respects _ (chmod _ _ _) =>
      unfold chmod; respects_walk refl trans log err op
  | |- respects _ (chown _ _ _ _) =>
      unfold chown; respects_walk refl trans log err op
  | |- respects _ (execute_command _ _) =>
      unfold execute_command; respects_walk refl trans log err op
  | |- respects _ (modify_permissions _ _ _) =>
      unfold modify_permissions; cbv zeta; respects_walk refl trans log err op
  | |- respects _ (change_ownership _ _ _ _) =>
      unfold change_ownership; cbv zeta; respects_walk refl trans log err op
  | |- respects _ (main _ _) =>
      unfold main; cbv zeta; respects_walk refl trans log err op
  end.

(** Whatever relation the three primitive steps respect, every run of
    [main] respects. *)
Lemma respects_main
    (R : World -> World -> Prop) (os : OS) (argv : list string) :
  (forall w, R w w) ->
  (forall w1 w2 w3, R w1 w2 -> R w2 w3 -> R w1 w3) ->
  (forall msg, respects R (log_message os msg)) ->
  (forall s, respects R (eprint s)) ->
  (forall e, respects R (perform e)) ->
  respects R (main os argv).
Proof.
  intros Hrefl Htrans Hlog Herr Hop.
  respects_walk Hrefl Htrans ltac:(apply Hlog) ltac:(apply Herr)
    ltac:(apply Hop).
Qed.

(** ** The two shapes of a run that returns *)

Lemma usage_returns (os : OS) (msg text : string) (w : World) (v : Z) :
  prefix "Error: " msg = true ->
  (String.length msg < BUFFER_SIZE)%nat -> text <> "" ->
  fst ((log_message os msg ;; eprint text ;; ret 1) w) = Some v ->
  refused w v (snd ((log_message os msg ;; eprint text ;; ret 1) w)).
Proof.
  intros Hp Hlen Htext. run_monad.
  log_cases; cbn; intros H; try discriminate H; injection H as <-;
    exists msg, text; repeat split; assumption.
Qed.

Lemma execute_command_returns (os : OS) (cmd : string) (w : World) (v : Z) :
  fst (execute_command os cmd w) = Some v ->
  dispatched os w v (snd (execute_command os cmd w)).
Proof.
  run_monad.
  log_cases; cbn; intros H; try discriminate H; injection H as <-;
    exists (EvSpawn shell_path ["sh"; "-c"; cmd]); eexists; eexists;
    rewrite <- ?app_assoc; repeat split; exists cmd; reflexivity.
Qed.

Lemma modify_permissions_returns
    (os : OS) (p : string) (m : Z) (w : World) (v : Z) :
  0 <= m < 2 ^ 32 ->
  fst (modify_permissions os p m w) = Some v ->
  dispatched os w v (snd (modify_permissions os p m w)).
Proof.
  intros Hm. run_monad.
  destruct (os_chmod os p m) eqn:E; cbn [sys_int sys_errno Z.eqb negb];
    log_cases; cbn; intros H; try discriminate H; injection H as <-;
    exists (EvChmod p m); eexists; eexists;
    cbn [outcome_code outcome_report effect_fits];
    rewrite E, <- ?app_assoc; repeat split; apply Hm.
Qed.

Lemma change_ownership_returns
    (os : OS) (p : string) (u g : Z) (w : World) (v : Z) :
  0 <= u < 2 ^ 32 -> 0 <= g < 2 ^ 32 ->
  fst (change_ownership os p u g w) = Some v ->
  dispatched os w v (snd (change_ownership os p u g w)).
Proof.
  intros Hu Hg. run_monad.
  destruct (os_chown os p u g) eqn:E; cbn [sys_int sys_errno Z.eqb negb];
    log_cases; cbn; intros H; try discriminate H; injection H as <-;
    exists (EvChown p u g); eexists; eexists;
    cbn [outcome_code outcome_report effect_fits];
    rewrite E, <- ?app_assoc; repeat split; first [apply Hu | apply Hg].
Qed.

Lemma main_returns_shape (os : OS) (argv : list string) (w : World) (v : Z) :
  fst (main os argv w) = Some v ->
  refused w v (snd (main os argv w)) \/
  dispatched os w v (snd (main os argv w)).
Proof.
  main_branches; intros H;
    lazymatch goal with
    | |- _ \/ dispatched _ _ _ (snd (execute_command _ _ _)) =>
        right; apply execute_command_returns, H
    | |- _ \/ dispatched _ _ _ (snd (modify_permissions _ _ _ _)) =>
        right; apply modify_permissions_returns; [apply to_u32_range | exact H]
    | |- _ \/ dispatched _ _ _ (snd (change_ownership _ _ _ _ _)) =>
        right; apply change_ownership_returns;
        [apply to_u32_range | apply to_u32_range | exact H]
    | |- _ =>
        left; apply usage_returns;
        [ reflexivity
        | first [ apply snprintf_fits
                | unfold BUFFER_SIZE; cbn [String.length]; lia ]
        | cbn [append]; discriminate
        | exact H ]
    end.
Qed.

(** ** The log file and syslog *)

Lemma log_lines_app (os : OS) (a b : list string) :
  forall k,
    log_lines os k (a ++ b) =
      log_lines os k a ++ log_lines os (k + List.length a) b.
Proof.
  induction a as [| m a IH]; intros k; cbn [app log_lines List.length append].
  - rewrite Nat.add_0_r. reflexivity.
  - rewrite IH, string_app_assoc, Nat.add_succ_r. reflexivity.
Qed.

Lemma mirrors_refl (os : OS) (w : World) : mirrors os w w.
Proof.
  exists []. cbn [log_lines List.length].
  rewrite app_nil_r, string_app_nil_r, Nat.add_0_r. repeat split.
Qed.

Lemma mirrors_trans (os : OS) (w1 w2 w3 : World) :
  mirrors os w1 w2 -> mirrors os w2 w3 -> mirrors os w1 w3.
Proof.
  intros (a & Hs1 & Hl1 & Hn1) (b & Hs2 & Hl2 & Hn2).
  exists (a ++ b)%list. repeat split.
  - rewrite Hs2, Hs1. symmetry. apply app_assoc.
  - rewrite Hl2, Hl1, Hn1, log_lines_app. apply string_app_assoc.
  - rewrite Hn2, Hn1, length_app. lia.
Qed.

Lemma mirrors_same (os : OS) (w w' : World) :
  w_syslog w' = w_syslog w -> w_log w' = w_log w ->
  w_logcalls w' = w_logcalls w -> mirrors os w w'.
Proof.
  intros Hs Hl Hn. unfold mirrors. rewrite Hs, Hl, Hn. apply mirrors_refl.
Qed.

Lemma log_message_mirrors (os : OS) (msg : string) :
  respects (mirrors os) (log_message os msg).
Proof.
  intros w. unfold log_message. cbv zeta.
  destruct (os_log_open os (w_logcalls w)) eqn:Ho;
    [destruct (time_str os (w_logcalls w)) eqn:Ht |]; cbn [snd].
  - exists [msg]. cbn [w_syslog w_log w_logcalls log_lines List.length].
    rewrite Ho, Ht, string_app_nil_r. repeat split. lia.
  - apply mirrors_refl.
  - exists [msg]. cbn [w_syslog w_log w_logcalls log_lines List.length].
    rewrite Ho. cbn [append]. rewrite string_app_nil_r. repeat split. lia.
Qed.

Lemma main_mirrors (os : OS) (argv : list string) (w : World) :
  mirrors os w (snd (main os argv w)).
Proof.
  apply (respects_main (mirrors os) os argv
           (mirrors_refl os) (mirrors_trans os) (log_message_mirrors os)).
  - intros s w1. apply mirrors_same; reflexivity.
  - intros e w1. apply mirrors_same; reflexivity.
Qed.

(** ** Exit value *)

(** C5, as the code has it: a run requests at most one privileged
    operation, and a value [main] returns is this.  When no operation
    was requested (not root, missing arguments, unknown verb) it is 1.
    When one was requested it is what the primitive returned, unchanged:
    0 when [chmod] or [chown] succeeds, [-1] when it fails, and for
    [exec] the value of [system].  So [main] returns 0 exactly when an
    operation was requested and its primitive returned 0. *)
Theorem exit_value_is_the_primitive_result
    (os : OS) (argv : list string) (w : World) (v : Z) :
  fst (main os argv w) = Some v ->
  exists new,
    w_effects (snd (main os argv w)) = (w_effects w ++ new)%list /\
    ((new = [] /\ v = 1) \/
     (exists e, new = [e] /\ v = outcome_code os e)) /\
    (v = 0 <-> exists e, new = [e] /\ outcome_code os e = 0).
Proof.
  intros Hv. destruct (main_returns_shape os argv w v Hv) as [Hr | Hd].
  - destruct Hr as (msg & text & -> & Heff & _).
    exists []. rewrite Heff, app_nil_r.
    split; [reflexivity |]. split; [left; split; reflexivity |].
    split; [discriminate | intros (e & E & _); discriminate E].
  - destruct Hd as (e & m1 & m2 & -> & _ & Heff & _).
    exists [e]. split; [exact Heff |].
    split; [right; exists e; split; reflexivity |].
    split.
    + intros H0. exists e. split; [reflexivity | exact H0].
    + intros (e' & E & H0). injection E as <-. exact H0.
Qed.

Lemma exit_value_is_the_primitive_result_witness :
  fst (main os_failing ["JanetHelper"; "chmod"; "755"; "/nonexistent"] w0) =
    Some (-1) /\
  exists new,
    w_effects (snd (main os_failing
                      ["JanetHelper"; "chmod"; "755"; "/nonexistent"] w0)) =
      (w_effects w0 ++ new)%list /\
    ((new = [] /\ -1 = 1) \/
     (exists e, new = [e] /\ -1 = outcome_code os_failing e)).
Proof.
  split; [reflexivity |].
  destruct (exit_value_is_the_primitive_result
              os_failing ["JanetHelper"; "chmod"; "755"; "/nonexistent"] w0
              (-1) eq_refl) as (new & Heff & Hcase & _).
  exists new. split; [exact Heff | exact Hcase].
Defined.

(** C5, as the specification words it, fails: a failed [chmod] makes
    [main] return [-1], which the parent sees as exit status 255, not 1;
    and a command that exits with status 1 makes [main] return 256, which
    the parent sees as exit status 0. *)
Lemma failure_exit_value_is_not_1 :
  os_chmod os_failing "/nonexistent" 493 = SysErr ENOENT /\
  fst (main os_failing ["JanetHelper"; "chmod"; "755"; "/nonexistent"] w0) =
    Some (-1) /\
  exit_status (-1) = 255 /\
  os_spawn_wait os_failing "/bin/sh" ["sh"; "-c"; "false"] = Exited 1 /\
  fst (main os_failing ["JanetHelper"; "exec"; "false"] w0) = Some 256 /\
  exit_status 256 = 0.
Proof.
  repeat split.
Qed.

(** ** Format of the log file *)

Lemma has_nl_app (a b : string) : has_nl (a ++ b) = (has_nl a || has_nl b)%bool.
Proof.
  induction a as [| c a IH]; cbn [append has_nl]; [reflexivity |].
  rewrite IH. apply orb_assoc.
Qed.

Lemma has_nl_substring (n : nat) :
  forall s, has_nl s = false -> has_nl (substring 0 n s) = false.
Proof.
  induction n as [| n IH]; intros [| c s] H; cbn in *; try reflexivity.
  apply orb_false_iff in H as [Hc Hs]. rewrite Hc. cbn. apply IH, Hs.
Qed.

Lemma has_nl_snprintf (s : string) :
  has_nl s = false -> has_nl (snprintf BUFFER_SIZE s) = false.
Proof.
  apply has_nl_substring.
Qed.

Lemma has_nl_string_of_uint (d : Decimal.uint) :
  has_nl (NilEmpty.string_of_uint d) = false.
Proof.
  induction d; cbn [NilEmpty.string_of_uint has_nl]; try exact IHd; reflexivity.
Qed.

Lemma has_nl_nilzero (d : Decimal.uint) :
  has_nl (NilZero.string_of_uint d) = false.
Proof.
  destruct d; try reflexivity;
    match goal with
    | |- has_nl (NilZero.string_of_uint ?x) = false =>
        exact (has_nl_string_of_uint x)
    end.
Qed.

Lemma has_nl_fmt_d (z : Z) : has_nl (fmt_d z) = false.
Proof.
  unfold fmt_d. destruct (Z.to_int z) as [d | d];
    cbn [NilZero.string_of_int has_nl]; [| change (is_nl "-") with false];
    apply has_nl_nilzero.
Qed.

Lemma has_nl_of_pos :
  forall (p : positive) (rest : string),
    has_nl (OctalString.Raw.of_pos p rest) = has_nl rest.
Proof.
  fix IH 1. intros p rest.
  do 3 try destruct p as [p | p |]; cbn [OctalString.Raw.of_pos];
    try rewrite IH; reflexivity.
Qed.

Lemma has_nl_fmt_o (m : Z) : has_nl (fmt_o m) = false.
Proof.
  destruct m; cbn [fmt_o]; try reflexivity. apply has_nl_of_pos.
Qed.

Lemma has_nl_nth (i : nat) (argv : list string) :
  Forall (fun a => has_nl a = false) argv ->
  has_nl (nth i argv "(null)") = false.
Proof.
  intros H. revert i. induction H as [| a argv Ha _ IH]; intros [| i];
    cbn [nth]; try reflexivity; [exact Ha | apply IH].
Qed.

Lemma digit_is_no_nl (c : ascii) : is_digit c = true -> is_nl c = false.
Proof.
  destruct c as [[] [] [] [] [] [] [] []]; intros H;
    try discriminate H; reflexivity.
Qed.

Lemma layout_has_no_nl (pat : string) :
  has_nl pat = false ->
  forall s, matches_layout pat s = true -> has_nl s = false.
Proof.
  induction pat as [| p pat IH]; intros Hpat [| c s] Hs;
    cbn in Hs; try discriminate Hs; [reflexivity |].
  cbn [has_nl] in Hpat. apply orb_false_iff in Hpat as [Hp Hrest].
  apply andb_true_iff in Hs as [Hc Hs].
  cbn [has_nl]. rewrite (IH Hrest s Hs), orb_false_r.
  destruct (Ascii.eqb p "d").
  - apply digit_is_no_nl, Hc.
  - apply Ascii.eqb_eq in Hc. subst c. exact Hp.
Qed.

Lemma starts_with_layout_app (p1 p2 s1 s2 : string) :
  matches_layout p1 s1 = true -> starts_with_layout p2 s2 = true ->
  starts_with_layout (p1 ++ p2) (s1 ++ s2) = true.
Proof.
  revert s1. induction p1 as [| p p1 IH]; intros [| c s1] H1 H2;
    cbn in H1 |- *; try discriminate H1; [exact H2 |].
  apply andb_true_iff in H1 as [Hc Hrest].
  rewrite Hc. cbn. apply IH; assumption.
Qed.

Lemma entry_has_stamp (ts msg : string) :
  is_timestamp ts = true -> has_stamp ("[" ++ ts ++ "] " ++ msg) = true.
Proof.
  intros Hts. unfold has_stamp.
  change "[dddd-dd-dd dd:dd:dd] "
    with ("[" ++ "dddd-dd-dd dd:dd:dd" ++ "] " ++ "").
  apply starts_with_layout_app; [reflexivity |].
  apply starts_with_layout_app; [exact Hts |].
  apply starts_with_layout_app; reflexivity.
Qed.

Lemma lines_from_line (l rest : string) :
  has_nl l = false ->
  forall cur, lines_from cur (l ++ nl ++ rest) = (cur ++ l) :: lines_from "" rest.
Proof.
  induction l as [| c l IH]; intros Hl cur.
  - cbn. rewrite string_app_nil_r. reflexivity.
  - cbn [has_nl] in Hl. apply orb_false_iff in Hl as [Hc Hl].
    cbn [append lines_from]. rewrite Hc, (IH Hl), string_app_assoc.
    reflexivity.
Qed.

Lemma concat_cons (x : string) (l : list string) :
  String.concat "" (x :: l) = x ++ String.concat "" l.
Proof.
  destruct l; cbn [String.concat append];
    [symmetry; apply string_app_nil_r | reflexivity].
Qed.

Lemma entries_have_stamps (entries : list string) :
  Forall entry_ok entries ->
  Forall (fun l => has_stamp l = true) (lines_of (String.concat "" entries)).
Proof.
  induction 1 as [| x entries (ts & msg & Hts & Hmsg & ->) _ IH];
    [constructor |].
  rewrite concat_cons. unfold lines_of.
  replace (("[" ++ ts ++ "] " ++ msg ++ nl) ++ String.concat "" entries)
    with (("[" ++ ts ++ "] " ++ msg) ++ nl ++ String.concat "" entries)
    by (rewrite !string_app_assoc; reflexivity).
  rewrite lines_from_line.
  - constructor; [apply entry_has_stamp, Hts | exact IH].
  - rewrite !has_nl_app, Hmsg.
    rewrite (layout_has_no_nl "dddd-dd-dd dd:dd:dd" eq_refl ts Hts).
    reflexivity.
Qed.

Lemma log_extends_refl (w : World) : log_extends w w.
Proof.
  exists []. split; [symmetry; apply string_app_nil_r | constructor].
Qed.

Lemma log_extends_trans (w1 w2 w3 : World) :
  log_extends w1 w2 -> log_extends w2 w3 -> log_extends w1 w3.
Proof.
  intros (l1 & H1 & F1) (l2 & H2 & F2). exists (l1 ++ l2)%list. split.
  - rewrite H2, H1, concat_empty_app. apply string_app_assoc.
  - apply Forall_app. split; assumption.
Qed.

Lemma log_untouched_extends {A : Type} (m : M A) :
  (forall w, w_log (snd (m w)) = w_log w) -> respects log_extends m.
Proof.
  intros Hsame w. exists []. split; [| constructor].
  rewrite Hsame. symmetry. apply string_app_nil_r.
Qed.

Lemma time_str_proper (os : OS) (k : nat) :
  CInt.to_int (os_tm_ptr os k) = os_tm_ptr os k ->
  time_str os k = Some (strftime (os_localtime os k)).
Proof.
  intros H. unfold time_str. cbv zeta. rewrite H, Z.eqb_refl. reflexivity.
Qed.

Lemma log_message_extends (os : OS) (msg : string) :
  (forall k, tm_ok (os_localtime os k)) ->
  (forall k, CInt.to_int (os_tm_ptr os k) = os_tm_ptr os k) ->
  has_nl msg = false ->
  respects log_extends (log_message os msg).
Proof.
  intros Hclock Hptr Hmsg w. unfold log_message. cbv zeta.
  rewrite (time_str_proper os _ (Hptr _)).
  destruct (os_log_open os (w_logcalls w)); cbn [snd].
  - exists ["[" ++ strftime (os_localtime os (w_logcalls w)) ++ "] " ++
            msg ++ nl].
    split; [reflexivity |].
    constructor; [| constructor].
    exists (strftime (os_localtime os (w_logcalls w))), msg.
    repeat split; [apply strftime_layout, Hclock | exact Hmsg].
  - exists []. split; [symmetry; apply string_app_nil_r | constructor].
Qed.

(** C8, as the code has it: [log_message] copies its message as it is.
    When [localtime] gives fields in range with a year of four digits
    and [strftime] is handed the pointer uncut, each call of
    [log_message] that opens the file appends exactly a timestamp
    laid out as YYYY-MM-DD HH:MM:SS between square brackets, one space,
    the message and a newline.  If moreover no argument of the
    invocation and no error text holds a newline, every line that a run
    of [main] adds to the file begins with such a bracketed timestamp
    and a space. *)
Theorem log_lines_have_the_audit_format (os : OS) :
  (forall k, tm_ok (os_localtime os k)) ->
  (forall k, CInt.to_int (os_tm_ptr os k) = os_tm_ptr os k) ->
  (forall msg w,
      os_log_open os (w_logcalls w) = true ->
      exists ts,
        is_timestamp ts = true /\
        w_log (snd (log_message os msg w)) =
          w_log w ++ "[" ++ ts ++ "] " ++ msg ++ nl) /\
  (forall argv w,
      Forall (fun a => has_nl a = false) argv ->
      (forall e, has_nl (os_strerror os e) = false) ->
      exists added,
        w_log (snd (main os argv w)) = w_log w ++ added /\
        Forall (fun l => has_stamp l = true) (lines_of added)).
Proof.
  intros Hclock Hptr. split.
  - intros msg w Hopen. exists (strftime (os_localtime os (w_logcalls w))).
    split; [apply strftime_layout, Hclock |].
    unfold log_message. cbv zeta.
    rewrite Hopen, (time_str_proper os _ (Hptr _)). reflexivity.
  - intros argv w Hargv Hstr.
    assert (H : log_extends w (snd (main os argv w))).
    { revert w. change (respects log_extends (main os argv)).
      unfold main. cbv beta zeta.
      respects_walk log_extends_refl log_extends_trans
        ltac:(apply (log_message_extends os _ Hclock Hptr);
              try apply has_nl_snprintf;
              rewrite ?has_nl_app, ?has_nl_fmt_d, ?has_nl_fmt_o, ?Hstr,
                ?(has_nl_nth _ _ Hargv);
              reflexivity)
        ltac:(apply log_untouched_extends; reflexivity)
        ltac:(apply log_untouched_extends; reflexivity). }
    destruct H as (entries & Hlog & Hok).
    exists (String.concat "" entries).
    split; [exact Hlog | apply entries_have_stamps, Hok].
Qed.

Lemma log_lines_have_the_audit_format_witness :
  (forall k, tm_ok (os_localtime os_root k)) /\
  (forall k, CInt.to_int (os_tm_ptr os_root k) = os_tm_ptr os_root k) /\
  exists added,
    w_log (snd (main os_root ["JanetHelper"; "chmod"; "755"; "/tmp/f"] w0)) =
      w_log w0 ++ added /\
    Forall (fun l => has_stamp l = true) (lines_of added).
Proof.
  assert (Hclock : forall k, tm_ok (os_localtime os_root k)).
  { intros k. cbn. unfold tm_ok. cbn. lia. }
  assert (Hptr : forall k, CInt.to_int (os_tm_ptr os_root k) =
                           os_tm_ptr os_root k).
  { intros k. reflexivity. }
  split; [exact Hclock |]. split; [exact Hptr |].
  destruct (log_lines_have_the_audit_format os_root Hclock Hptr)
    as [_ Hmain].
  apply Hmain.
  - repeat constructor.
  - intros e. reflexivity.
Defined.

(** C8, as the specification words it, fails: the message is copied
    with its newlines, so [exec] of a command of two lines leaves in the
    log file a line that is the second line of the command, with no
    timestamp. *)
Lemma unstamped_line_in_the_log :
  lines_of (w_log (snd (main os_root
                          ["JanetHelper"; "exec"; two_line_command] w0))) =
    ["[2024-03-09 14:05:07] Executing command: true";
     "rm -rf /";
     "[2024-03-09 14:05:07] Command execution result: 0"] /\
  has_stamp "rm -rf /" = false.
Proof.
  split; reflexivity.
Qed.

(** * Further properties of the helper *)

(** ** Numeric arguments *)

(** X1: as root, once the first call of [log_message] has returned,
    [chown] with a uid and a gid written in decimal, each between 0 and
    [INT_MAX], asks the kernel for exactly that uid and gid on the given
    path. *)
Theorem chown_reads_decimal_ids
    (os : OS) (a0 p : string) (u g : Z) (rest : list string) (w : World) :
  os_euid os = 0 ->
  log_returns os (w_logcalls w) = true ->
  0 <= u <= CInt.INT_MAX -> 0 <= g <= CInt.INT_MAX ->
  w_effects (snd (main os (a0 :: "chown" :: fmt_d u :: fmt_d g :: p :: rest) w)) =
    (w_effects w ++ [EvChown p u g])%list.
Proof.
  intros He Hlog Hu Hg. rewrite (main_chown os _ _ _ _ _ w He).
  rewrite (id_read_back u Hu), (id_read_back g Hg).
  apply change_ownership_effects, Hlog.
Qed.

Lemma chown_reads_decimal_ids_witness :
  os_euid os_root = 0 /\ log_returns os_root (w_logcalls w0) = true /\
  w_effects (snd (main os_root
                    ["JanetHelper"; "chown"; fmt_d 1000; fmt_d 20; "/tmp/f"] w0)) =
    [EvChown "/tmp/f" 1000 20].
Proof.
  split; [reflexivity |]. split; [reflexivity |].
  apply (chown_reads_decimal_ids os_root "JanetHelper" "/tmp/f" 1000 20 [] w0);
    [reflexivity | reflexivity
    | unfold CInt.INT_MAX; lia | unfold CInt.INT_MAX; lia].
Defined.

(** X2: as root, once the first call of [log_message] has returned,
    [chmod] with a mode written in octal (any unsigned 32-bit value, as
    [%o] prints it) asks the kernel for exactly that mode on the given
    path. *)
Theorem chmod_reads_octal_mode
    (os : OS) (a0 p : string) (m : Z) (rest : list string) (w : World) :
  os_euid os = 0 ->
  log_returns os (w_logcalls w) = true ->
  0 <= m < 2 ^ 32 ->
  w_effects (snd (main os (a0 :: "chmod" :: fmt_o m :: p :: rest) w)) =
    (w_effects w ++ [EvChmod p m])%list.
Proof.
  intros He Hlog Hm. rewrite (main_chmod os _ _ _ _ w He).
  rewrite (mode_read_back m Hm). apply modify_permissions_effects, Hlog.
Qed.

Lemma chmod_reads_octal_mode_witness :
  os_euid os_root = 0 /\ log_returns os_root (w_logcalls w0) = true /\
  w_effects (snd (main os_root ["JanetHelper"; "chmod"; fmt_o 493; "/tmp/f"] w0)) =
    [EvChmod "/tmp/f" 493].
Proof.
  split; [reflexivity |]. split; [reflexivity |].
  apply (chmod_reads_octal_mode os_root "JanetHelper" "/tmp/f" 493 [] w0);
    [reflexivity | reflexivity | change (2 ^ 32) with 4294967296; lia].
Defined.



(** X4: [chmod] uses the two arguments after the verb and [chown] the
    three after it; further arguments change nothing. *)
Theorem chmod_chown_ignore_extra_arguments
    (os : OS) (a0 m u g p : string) (rest : list string) (w : World) :
  main os (a0 :: "chmod" :: m :: p :: rest) w =
    main os [a0; "chmod"; m; p] w /\
  main os (a0 :: "chown" :: u :: g :: p :: rest) w =
    main os [a0; "chown"; u; g; p] w.
Proof.
  destruct (Z.eq_dec (os_euid os) 0) as [He | Hne].
  - rewrite !main_chmod, !main_chown by exact He. split; reflexivity.
  - rewrite !main_not_root by exact Hne. split; reflexivity.
Qed.


(** ** Refusals *)

(** X5: as root, once the first call of [log_message] has returned, a
    verb other than [exec], [chmod] and [chown] is refused whatever
    follows it: [main] returns 1, requests nothing from the kernel, names
    the verb on stderr and has logged it. *)
Theorem unknown_verb_is_refused
    (os : OS) (a0 verb : string) (args : list string) (w : World) :
  os_euid os = 0 ->
  log_returns os (w_logcalls w) = true ->
  verb <> "exec" -> verb <> "chmod" -> verb <> "chown" ->
  let r := main os (a0 :: verb :: args) w in
  fst r = Some 1 /\
  w_effects (snd r) = w_effects w /\
  w_stderr (snd r) = w_stderr w ++ "Error: Unknown command: " ++ verb ++ nl /\
  w_syslog (snd r) =
    (w_syslog w ++
     [snprintf BUFFER_SIZE ("Error: Unknown command: " ++ verb)])%list.
Proof.
  intros He Hlog Hexec Hchmod Hchown r. subst r. unfold main.
  rewrite He. cbn [Z.eqb negb is_authorized List.length nth].
  apply String.eqb_neq in Hexec, Hchmod, Hchown.
  rewrite Hexec, Hchmod, Hchown.
  destruct (Z.ltb_spec (Z.of_nat (S (S (List.length args)))) 2) as [Hlt | _];
    [lia |].
  revert Hlog. unfold log_returns. run_monad.
  log_cases; cbn; intros H; try discriminate H; repeat split.
Qed.

Lemma unknown_verb_is_refused_witness :
  os_euid os_root = 0 /\ log_returns os_root (w_logcalls w0) = true /\
  fst (main os_root ["JanetHelper"; "rm"; "-rf"; "/"] w0) = Some 1 /\
  w_effects (snd (main os_root ["JanetHelper"; "rm"; "-rf"; "/"] w0)) = [].
Proof.
  split; [reflexivity |]. split; [reflexivity |].
  destruct (unknown_verb_is_refused os_root "JanetHelper" "rm" ["-rf"; "/"] w0)
    as (Hret & Heff & _); try reflexivity; try discriminate.
  split; [exact Hret | exact Heff].
Defined.

(** X6: as root, once the first call of [log_message] has returned, an
    invocation without a verb is a usage error: [main] returns 1,
    requests nothing from the kernel, has logged it and prints the usage
    line with the program's name. *)
Theorem missing_verb_is_usage_error (os : OS) (a0 : string) (w : World) :
  os_euid os = 0 ->
  log_returns os (w_logcalls w) = true ->
  let r := main os [a0] w in
  fst r = Some 1 /\
  w_effects (snd r) = w_effects w /\
  w_stderr (snd r) =
    w_stderr w ++ "Usage: " ++ a0 ++ " <command> [args...]" ++ nl /\
  w_syslog (snd r) = (w_syslog w ++ ["Error: No command specified"])%list.
Proof.
  intros He Hlog r. subst r. unfold main. rewrite He.
  cbn [Z.eqb negb is_authorized List.length nth Z.of_nat Pos.of_succ_nat Z.ltb
       Z.compare Pos.compare Pos.compare_cont].
  revert Hlog. unfold log_returns. run_monad.
  log_cases; cbn; intros H; try discriminate H; repeat split.
Qed.

Lemma missing_verb_is_usage_error_witness :
  os_euid os_root = 0 /\ log_returns os_root (w_logcalls w0) = true /\
  fst (main os_root ["JanetHelper"] w0) = Some 1.
Proof.
  split; [reflexivity |]. split; [reflexivity |].
  apply (missing_verb_is_usage_error os_root "JanetHelper" w0); reflexivity.
Defined.

(** ** Counting what a run leaves behind *)

(** X7: a run that returns has requested at most one operation from the
    kernel, and has sent syslog exactly one message plus one more for the
    operation it requested: one message for a refusal, two for a
    dispatched operation, whether it succeeded or failed. *)
Theorem syslog_counts_operations
    (os : OS) (argv : list string) (w : World) (v : Z) :
  fst (main os argv w) = Some v ->
  exists new,
    w_effects (snd (main os argv w)) = (w_effects w ++ new)%list /\
    (List.length new <= 1)%nat /\
    List.length (w_syslog (snd (main os argv w))) =
      (List.length (w_syslog w) + 1 + List.length new)%nat.
Proof.
  intros Hv. destruct (main_returns_shape os argv w v Hv) as [Hr | Hd].
  - destruct Hr as (msg & text & _ & Heff & Hsys & _).
    exists []. rewrite Heff, Hsys, length_app, app_nil_r. cbn.
    repeat split; lia.
  - destruct Hd as (e & m1 & m2 & _ & _ & Heff & Hsys & _).
    exists [e]. rewrite Heff, Hsys, length_app. cbn.
    repeat split; lia.
Qed.

Lemma syslog_counts_operations_witness :
  fst (main os_failing ["JanetHelper"; "chmod"; "755"; "/nonexistent"] w0) =
    Some (-1) /\
  exists new,
    w_effects (snd (main os_failing
                      ["JanetHelper"; "chmod"; "755"; "/nonexistent"] w0)) =
      (w_effects w0 ++ new)%list /\
    (List.length new <= 1)%nat /\
    List.length
      (w_syslog (snd (main os_failing
                        ["JanetHelper"; "chmod"; "755"; "/nonexistent"] w0))) =
      (List.length (w_syslog w0) + 1 + List.length new)%nat.
Proof.
  split; [reflexivity |].
  apply (syslog_counts_operations
           os_failing ["JanetHelper"; "chmod"; "755"; "/nonexistent"] w0 (-1)).
  reflexivity.
Defined.

Lemma stderr_kept_by_operations (os : OS) :
  (forall p m, respects stderr_kept (modify_permissions os p m)) /\
  (forall p u g, respects stderr_kept (change_ownership os p u g)).
Proof.
  assert (Hrefl : forall w, stderr_kept w w) by reflexivity.
  assert (Htrans : forall w1 w2 w3,
             stderr_kept w1 w2 -> stderr_kept w2 w3 -> stderr_kept w1 w3).
  { unfold stderr_kept. intros w1 w2 w3 H12 H23. rewrite H23. exact H12. }
  assert (Hlog : forall msg, respects stderr_kept (log_message os msg)).
  { intros msg w. unfold stderr_kept, log_message. log_cases; reflexivity. }
  split; intros;
    respects_walk Hrefl Htrans ltac:(apply Hlog) ltac:(fail)
      ltac:(intros w0'; reflexivity).
Qed.

(** X8: as root, a [chmod] or [chown] with its arguments present writes
    nothing to stderr, whether the system call succeeds or fails: its
    failure is only logged. *)
Theorem chmod_chown_failures_are_not_printed
    (os : OS) (a0 m u g p : string) (rest : list string) (w : World) :
  os_euid os = 0 ->
  w_stderr (snd (main os (a0 :: "chmod" :: m :: p :: rest) w)) = w_stderr w /\
  w_stderr (snd (main os (a0 :: "chown" :: u :: g :: p :: rest) w)) = w_stderr w.
Proof.
  intros He. rewrite (main_chmod os _ _ _ _ w He), (main_chown os _ _ _ _ _ w He).
  destruct (stderr_kept_by_operations os) as [Hchmod Hchown].
  split; [apply Hchmod | apply Hchown].
Qed.

Lemma chmod_chown_failures_are_not_printed_witness :
  os_euid os_failing = 0 /\
  fst (main os_failing ["JanetHelper"; "chmod"; "755"; "/nonexistent"] w0) =
    Some (-1) /\
  w_stderr (snd (main os_failing
                   ["JanetHelper"; "chmod"; "755"; "/nonexistent"] w0)) = "".
Proof.
  split; [reflexivity |]. split; [reflexivity |].
  apply (chmod_chown_failures_are_not_printed
           os_failing "JanetHelper" "755" "0" "0" "/nonexistent" [] w0).
  reflexivity.
Defined.

Lemma log_message_sends_short (os : OS) (msg : string) :
  (String.length msg < BUFFER_SIZE)%nat ->
  respects sends_short (log_message os msg).
Proof.
  intros Hlen w. unfold sends_short, log_message. log_cases.
  - exists [msg]. split; [reflexivity | constructor; [exact Hlen | constructor]].
  - exists []. split; [symmetry; apply app_nil_r | constructor].
  - exists [msg]. split; [reflexivity | constructor; [exact Hlen | constructor]].
Qed.

Lemma sends_short_refl (w : World) : sends_short w w.
Proof.
  exists []. split; [symmetry; apply app_nil_r | constructor].
Qed.

Lemma sends_short_trans (w1 w2 w3 : World) :
  sends_short w1 w2 -> sends_short w2 w3 -> sends_short w1 w3.
Proof.
  intros (a & Ha & Fa) (b & Hb & Fb). exists (a ++ b)%list. split.
  - rewrite Hb, Ha. symmetry. apply app_assoc.
  - apply Forall_app. split; assumption.
Qed.

(** X12: every message a run sends to syslog is shorter than
    [BUFFER_SIZE], however long the arguments are. *)
Theorem syslog_messages_fit_the_buffer
    (os : OS) (argv : list string) (w : World) :
  exists ms,
    w_syslog (snd (main os argv w)) = (w_syslog w ++ ms)%list /\
    Forall (fun m => (String.length m < BUFFER_SIZE)%nat) ms.
Proof.
  revert w. change (respects sends_short (main os argv)).
  respects_walk sends_short_refl sends_short_trans
    ltac:(apply log_message_sends_short;
          first [ apply snprintf_fits
                | unfold BUFFER_SIZE; cbn [String.length]; lia ])
    ltac:(intros w; exists []; split;
          [symmetry; apply app_nil_r | constructor])
    ltac:(intros w; exists []; split;
          [symmetry; apply app_nil_r | constructor]).
Qed.

Lemma perform_asks_fitting (e : Effect) :
  effect_fits e -> respects asks_fitting (perform e).
Proof.
  intros He w. exists [e].
  split; [reflexivity | constructor; [exact He | constructor]].
Qed.

Lemma asks_fitting_refl (w : World) : asks_fitting w w.
Proof.
  exists []. split; [symmetry; apply app_nil_r | constructor].
Qed.

Lemma asks_fitting_trans (w1 w2 w3 : World) :
  asks_fitting w1 w2 -> asks_fitting w2 w3 -> asks_fitting w1 w3.
Proof.
  intros (a & Ha & Fa) (b & Hb & Fb). exists (a ++ b)%list. split.
  - rewrite Hb, Ha. symmetry. apply app_assoc.
  - apply Forall_app. split; assumption.
Qed.

Lemma asks_fitting_same {A : Type} (m : M A) :
  (forall w, w_effects (snd (m w)) = w_effects w) -> respects asks_fitting m.
Proof.
  intros H w. exists []. rewrite H, app_nil_r. split; [reflexivity | constructor].
Qed.

(** X15: whatever the arguments, the only program a run spawns is the
    shell, as [sh -c command], and the modes, uids and gids it hands to
    the kernel are unsigned 32-bit values. *)
Theorem requests_fit_the_kernel_types
    (os : OS) (argv : list string) (w : World) :
  exists new,
    w_effects (snd (main os argv w)) = (w_effects w ++ new)%list /\
    Forall effect_fits new.
Proof.
  revert w. change (respects asks_fitting (main os argv)).
  respects_walk asks_fitting_refl asks_fitting_trans
    ltac:(apply asks_fitting_same; intros w; unfold log_message;
          log_cases; reflexivity)
    ltac:(apply asks_fitting_same; reflexivity)
    ltac:(apply perform_asks_fitting; cbn [effect_fits];
          first [ split; [reflexivity | eexists; reflexivity]
                | split; apply to_u32_range
                | apply to_u32_range ]).
Qed.

(** ** Logging and the outcome *)












(** X18: the log file mirrors syslog.  For each message a run sends to
    syslog, in the same order, the file receives the line
    [[timestamp] message] if it opened at that call, and nothing if it
    did not; it receives nothing else. *)
Theorem log_file_mirrors_syslog (os : OS) (argv : list string) (w : World) :
  exists ms,
    w_syslog (snd (main os argv w)) = (w_syslog w ++ ms)%list /\
    w_log (snd (main os argv w)) =
      w_log w ++ log_lines os (w_logcalls w) ms.
Proof.
  destruct (main_mirrors os argv w) as (ms & Hs & Hl & _).
  exists ms. split; assumption.
Qed.

(** X19: when [main] returns a value other than 0, the last message it
    sent to syslog records the failure: an error of the invocation, the
    failed [chmod] or [chown] with the text of its [errno], or the value
    [system] returned; and the log file has received its line for each
    message sent, that one included, at the calls where it opened. *)
Theorem returned_failure_is_logged
    (os : OS) (argv : list string) (w : World) (v : Z) :
  fst (main os argv w) = Some v -> v <> 0 ->
  exists ms msg,
    w_syslog (snd (main os argv w)) = (w_syslog w ++ ms ++ [msg])%list /\
    reports_failure os v msg /\
    w_log (snd (main os argv w)) =
      w_log w ++ log_lines os (w_logcalls w) (ms ++ [msg]).
Proof.
  intros Hv Hne.
  destruct (main_mirrors os argv w) as (all & Hs & Hl & _).
  destruct (main_returns_shape os argv w v Hv) as [Hr | Hd].
  - destruct Hr as (msg & text & _ & _ & Hsys & Hp & _).
    exists [], msg. rewrite Hsys in Hs. apply app_inv_head in Hs. subst all.
    repeat split; [exact Hsys | left; exact Hp | exact Hl].
  - destruct Hd as (e & m1 & m2 & Hval & _ & _ & Hsys & Hrep & _).
    exists [m1], m2. rewrite Hsys in Hs. apply app_inv_head in Hs. subst all.
    repeat split; [exact Hsys | | exact Hl].
    destruct e as [path args | path mode | path uid gid];
      cbn [outcome_report outcome_code] in Hrep, Hval.
    + right. right. right. rewrite Hval. exact Hrep.
    + destruct (os_chmod os path mode) as [| e0];
        [cbn in Hval; contradiction |].
      right. left. exists e0. exact Hrep.
    + destruct (os_chown os path uid gid) as [| e0];
        [cbn in Hval; contradiction |].
      right. right. left. exists e0. exact Hrep.
Qed.

Lemma returned_failure_is_logged_witness :
  fst (main os_failing ["JanetHelper"; "chmod"; "755"; "/nonexistent"] w0) =
    Some (-1) /\
  exists ms msg,
    w_syslog (snd (main os_failing
                     ["JanetHelper"; "chmod"; "755"; "/nonexistent"] w0)) =
      (w_syslog w0 ++ ms ++ [msg])%list /\
    reports_failure os_failing (-1) msg.
Proof.
  split; [reflexivity |].
  destruct (returned_failure_is_logged
              os_failing ["JanetHelper"; "chmod"; "755"; "/nonexistent"] w0 (-1)
              eq_refl) as (ms & msg & Hs & Hrep & _); [discriminate |].
  exists ms, msg. split; [exact Hs | exact Hrep].
Defined.

(** ** Exit status of [exec] *)

(** X11: as root, when the command run by [exec] exits normally, with
    whatever code, a value [main] returns has its low eight bits clear:
    the parent reads exit status 0 even if the command failed. *)
Theorem exec_exit_status_hides_command_failure
    (os : OS) (a0 cmd : string) (rest : list string) (w : World)
    (code v : Z) :
  os_euid os = 0 ->
  os_spawn_wait os shell_path ["sh"; "-c"; cmd] = Exited code ->
  fst (main os (a0 :: "exec" :: cmd :: rest) w) = Some v ->
  exit_status v = 0.
Proof.
  intros He Hchild. rewrite (main_exec os a0 cmd rest w He). intros Hv.
  destruct (log_returns os (w_logcalls w)) eqn:Hlog.
  - destruct (execute_command_effects os cmd w Hlog) as [_ Hret].
    rewrite (Hret v Hv), Hchild. apply low_byte_of_wait_status.
  - unfold execute_command in Hv.
    rewrite (killed_at_first_log os _ _ w Hlog) in Hv. discriminate Hv.
Qed.

Lemma exec_exit_status_hides_command_failure_witness :
  os_euid os_failing = 0 /\
  os_spawn_wait os_failing shell_path ["sh"; "-c"; "false"] = Exited 1 /\
  fst (main os_failing ["JanetHelper"; "exec"; "false"] w0) = Some 256 /\
  exit_status 256 = 0.
Proof.
  split; [reflexivity |]. split; [reflexivity |]. split; [reflexivity |].
  apply (exec_exit_status_hides_command_failure
           os_failing "JanetHelper" "false" [] w0 1 256); reflexivity.
Defined.

(** ** What the log says of a command *)

Lemma execute_command_first_message (os : OS) (cmd : string) (w : World) :
  log_returns os (w_logcalls w) = true ->
  exists ms,
    w_syslog (snd (execute_command os cmd w)) =
      (w_syslog w ++
       snprintf BUFFER_SIZE ("Executing command: " ++ cmd) :: ms)%list.
Proof.
  unfold log_returns. run_monad.
  log_cases; cbn; intros H; try discriminate H;
    rewrite <- ?app_assoc; eexists; reflexivity.
Qed.

(** X13: as root, once the first call of [log_message] has returned, a
    command of at most 4076 bytes has been logged in full before it is
    run. *)
Theorem short_command_is_logged_in_full
    (os : OS) (a0 cmd : string) (rest : list string) (w : World) :
  os_euid os = 0 ->
  log_returns os (w_logcalls w) = true ->
  (String.length cmd <= 4076)%nat ->
  exists ms,
    w_syslog (snd (main os (a0 :: "exec" :: cmd :: rest) w)) =
      (w_syslog w ++ ("Executing command: " ++ cmd)%string :: ms)%list.
Proof.
  intros He Hlog Hlen. rewrite (main_exec os a0 cmd rest w He).
  destruct (execute_command_first_message os cmd w Hlog) as (ms & Hs).
  exists ms. rewrite Hs. unfold snprintf.
  rewrite substring_all; [reflexivity |].
  rewrite executing_length. unfold BUFFER_SIZE. lia.
Qed.

Lemma short_command_is_logged_in_full_witness :
  os_euid os_root = 0 /\ log_returns os_root (w_logcalls w0) = true /\
  (String.length "rm -rf /" <= 4076)%nat /\
  exists ms,
    w_syslog (snd (main os_root ["JanetHelper"; "exec"; "rm -rf /"] w0)) =
      (w_syslog w0 ++ ("Executing command: " ++ "rm -rf /")%string :: ms)%list.
Proof.
  split; [reflexivity |]. split; [reflexivity |].
  assert (Hlen : (String.length "rm -rf /" <= 4076)%nat) by (cbn; lia).
  split; [exact Hlen |].
  apply (short_command_is_logged_in_full os_root "JanetHelper" "rm -rf /" [] w0);
    [reflexivity | reflexivity | exact Hlen].
Defined.

(** X14: as root, once the first call of [log_message] has returned, a
    command of more than 4076 bytes is handed to the shell in full but
    logged cut: the message logged before it holds [BUFFER_SIZE - 1]
    bytes only and is not the whole text. *)
Theorem long_command_is_logged_cut
    (os : OS) (a0 cmd : string) (rest : list string) (w : World) :
  os_euid os = 0 ->
  log_returns os (w_logcalls w) = true ->
  (4076 < String.length cmd)%nat ->
  exists m1 ms,
    w_syslog (snd (main os (a0 :: "exec" :: cmd :: rest) w)) =
      (w_syslog w ++ m1 :: ms)%list /\
    String.length m1 = (BUFFER_SIZE - 1)%nat /\
    m1 <> "Executing command: " ++ cmd /\
    w_effects (snd (main os (a0 :: "exec" :: cmd :: rest) w)) =
      (w_effects w ++ [EvSpawn shell_path ["sh"; "-c"; cmd]])%list.
Proof.
  intros He Hlog Hlen. rewrite (main_exec os a0 cmd rest w He).
  destruct (execute_command_first_message os cmd w Hlog) as (ms & Hs).
  destruct (execute_command_effects os cmd w Hlog) as [Heff _].
  assert (Hcut : String.length
                   (snprintf BUFFER_SIZE ("Executing command: " ++ cmd)) =
                 (BUFFER_SIZE - 1)%nat).
  { unfold snprintf. apply substring_cut.
    rewrite executing_length. unfold BUFFER_SIZE. lia. }
  exists (snprintf BUFFER_SIZE ("Executing command: " ++ cmd)), ms.
  split; [exact Hs |]. split; [exact Hcut |]. split; [| exact Heff].
  intros Heq. rewrite Heq, executing_length in Hcut.
  unfold BUFFER_SIZE in Hcut. lia.
Qed.

Lemma long_command_is_logged_cut_witness :
  os_euid os_root = 0 /\ log_returns os_root (w_logcalls w0) = true /\
  (4076 < String.length long_command)%nat /\
  w_effects (snd (main os_root ["JanetHelper"; "exec"; long_command] w0)) =
    [EvSpawn shell_path ["sh"; "-c"; long_command]].
Proof.
  split; [reflexivity |]. split; [reflexivity |].
  assert (Hlen : (4076 < String.length long_command)%nat).
  { apply Nat.ltb_lt. vm_compute. reflexivity. }
  split; [exact Hlen |].
  destruct (long_command_is_logged_cut
              os_root "JanetHelper" long_command [] w0 eq_refl eq_refl Hlen)
    as (m1 & ms & _ & _ & _ & Heff).
  exact Heff.
Defined.

(** ** What the log says of [chmod] and [chown] *)

(** X16: as root, when a [chmod] run returns, the last message it logged
    tells the outcome: it is the success message exactly when the system
    call succeeded, which is also exactly when [main] returns 0; when
    the call failed it carries the error text of its [errno]. *)
Theorem chmod_log_tells_the_outcome
    (os : OS) (a0 m p : string) (rest : list string) (w : World) (v : Z) :
  os_euid os = 0 ->
  let mode := CInt.to_u32 (strtol m 8) in
  let r := main os (a0 :: "chmod" :: m :: p :: rest) w in
  fst r = Some v ->
  exists m1 m2,
    w_syslog (snd r) = (w_syslog w ++ [m1; m2])%list /\
    (m2 = "Permissions modified successfully" <-> os_chmod os p mode = SysOk) /\
    (v = 0 <-> os_chmod os p mode = SysOk) /\
    (forall e, os_chmod os p mode = SysErr e ->
       m2 = snprintf BUFFER_SIZE
              ("Failed to modify permissions: " ++ os_strerror os e)).
Proof.
  intros He mode r. subst r. rewrite (main_chmod os a0 m p rest w He).
  fold mode. run_monad.
  destruct (os_chmod os p mode) as [| e0];
    cbn [sys_int sys_errno Z.eqb negb];
    log_cases; cbn [fst snd w_syslog]; intros Hv; try discriminate Hv;
    injection Hv as <-;
    rewrite <- ?app_assoc; cbn [app]; eexists; eexists;
    (split; [reflexivity |]);
    first
      [ (split; [split; reflexivity |]); (split; [split; reflexivity |]);
        intros e E; discriminate E
      | cbn [append]; rewrite snprintf_head;
        (split; [split; intros H; discriminate H |]);
        (split; [split; intros H; discriminate H |]);
        intros e E; injection E as <-; reflexivity ].
Qed.

Lemma chmod_log_tells_the_outcome_witness :
  os_euid os_failing = 0 /\
  fst (main os_failing ["JanetHelper"; "chmod"; "755"; "/nonexistent"] w0) =
    Some (-1) /\
  exists m1,
    w_syslog (snd (main os_failing
                     ["JanetHelper"; "chmod"; "755"; "/nonexistent"] w0)) =
      [m1; ("Failed to modify permissions: " ++ "No such file or directory")%string].
Proof.
  split; [reflexivity |]. split; [reflexivity |].
  destruct (chmod_log_tells_the_outcome
              os_failing "JanetHelper" "755" "/nonexistent" [] w0 (-1)
              eq_refl eq_refl)
    as (m1 & m2 & Hsys & _ & _ & Hfail).
  exists m1. rewrite Hsys. rewrite (Hfail ENOENT eq_refl). reflexivity.
Defined.

(** X17: as root, when a [chown] run returns, the last message it logged
    tells the outcome: it is the success message exactly when the system
    call succeeded, which is also exactly when [main] returns 0; when
    the call failed it carries the error text of its [errno]. *)
Theorem chown_log_tells_the_outcome
    (os : OS) (a0 u g p : string) (rest : list string) (w : World) (v : Z) :
  os_euid os = 0 ->
  let uid := CInt.to_u32 (atoi u) in
  let gid := CInt.to_u32 (atoi g) in
  let r := main os (a0 :: "chown" :: u :: g :: p :: rest) w in
  fst r = Some v ->
  exists m1 m2,
    w_syslog (snd r) = (w_syslog w ++ [m1; m2])%list /\
    (m2 = "Ownership changed successfully" <-> os_chown os p uid gid = SysOk) /\
    (v = 0 <-> os_chown os p uid gid = SysOk) /\
    (forall e, os_chown os p uid gid = SysErr e ->
       m2 = snprintf BUFFER_SIZE
              ("Failed to change ownership: " ++ os_strerror os e)).
Proof.
  intros He uid gid r. subst r. rewrite (main_chown os a0 u g p rest w He).
  fold uid gid. run_monad.
  destruct (os_chown os p uid gid) as [| e0];
    cbn [sys_int sys_errno Z.eqb negb];
    log_cases; cbn [fst snd w_syslog]; intros Hv; try discriminate Hv;
    injection Hv as <-;
    rewrite <- ?app_assoc; cbn [app]; eexists; eexists;
    (split; [reflexivity |]);
    first
      [ (split; [split; reflexivity |]); (split; [split; reflexivity |]);
        intros e E; discriminate E
      | cbn [append]; rewrite snprintf_head;
        (split; [split; intros H; discriminate H |]);
        (split; [split; intros H; discriminate H |]);
        intros e E; injection E as <-; reflexivity ].
Qed.

Lemma chown_log_tells_the_outcome_witness :
  os_euid os_root = 0 /\
  fst (main os_root ["JanetHelper"; "chown"; "1000"; "20"; "/tmp/f"] w0) =
    Some 0 /\
  exists m1,
    w_syslog (snd (main os_root
                     ["JanetHelper"; "chown"; "1000"; "20"; "/tmp/f"] w0)) =
      [m1; "Ownership changed successfully"].
Proof.
  split; [reflexivity |]. split; [reflexivity |].
  destruct (chown_log_tells_the_outcome
              os_root "JanetHelper" "1000" "20" "/tmp/f" [] w0 0
              eq_refl eq_refl)
    as (m1 & m2 & Hsys & Hok & _).
  exists m1. rewrite Hsys, (proj2 Hok eq_refl). reflexivity.
Defined.
